(** * ai-prompt-netlify: the session state machine of [src/App.tsx]

    A shallow embedding of the React component [App] and of its access
    gate: the component state is a record, every event handler is a
    program of a small state-and-exception monad that keeps the sequence
    of states it publishes, and the generative backend is an input (the
    reply it gives to the one request a handler issues). *)

From Stdlib Require Import ZArith Ascii String DecimalString DecimalPos DecimalZ.
From stdpp Require Import base tactics option list strings gmap.

(** ** Types (App.tsx, lines 8-26) *)

Inductive AccessLevel := none | client | admin.

Record AdminSettings := {
  accessSecret : string;
  isGateEnabled : bool
}.

Record HistoryItem := {
  id : string;
  prompt : string;
  timestamp : Z;
  userInput : string;
  tone : string;
  targetAudience : string
}.

Inductive Role := user | model.

Record ChatMessage := {
  role : Role;
  content : string
}.

Inductive ActiveTab := refine | test.

#[global] Instance AccessLevel_eq_dec : EqDecision AccessLevel.
Proof. solve_decision. Defined.
#[global] Instance Role_eq_dec : EqDecision Role.
Proof. solve_decision. Defined.
#[global] Instance ChatMessage_eq_dec : EqDecision ChatMessage.
Proof. solve_decision. Defined.
#[global] Instance HistoryItem_eq_dec : EqDecision HistoryItem.
Proof. solve_decision. Defined.

Definition ADMIN_CODE : string := "admin-unlock-righteye".

(** The two system instructions are long constant texts; the requests
    recorded below only need to tell which one was sent, so they are
    tags. [PromptText p] is a generated prompt used as an instruction. *)
Inductive Instruction :=
| GENERATE_SYSTEM_INSTRUCTION
| REFINE_SYSTEM_INSTRUCTION
| PromptText (p : string).

(** ** The generative backend *)

(** A [Chat] handle, as [ai.chats.create] returns it: bound for good to
    the instruction and the seed history it was created with. *)
Record Chat := {
  chat_systemInstruction : Instruction;
  chat_history : list ChatMessage
}.

(** What a handler asks of the backend. *)
Inductive Request :=
| GenerateContentStream (mdl : string) (contents : string) (systemInstruction : Instruction)
| SendMessageStream (chat : Chat) (message : string).

(** A value caught by [catch (err)]: an [Error] with its [message], or
    anything else. *)
Inductive Thrown :=
| ErrorObject (message : string)
| OtherValue.

(** [err instanceof Error ? err.message : 'An unknown error occurred.'] *)
Definition errorMessage (err : Thrown) : string :=
  match err with
  | ErrorObject m => m
  | OtherValue => "An unknown error occurred."
  end.

(** One element of the stream: [chunk.text] is a string or undefined. *)
Record Chunk := { text : option string }.

(** The reply to a stream request: the awaited call rejects, or it
    resolves to a stream that yields [chunks] in order and then either
    ends ([failure = None]) or throws. *)
Inductive Reply :=
| Rejected (err : Thrown)
| Streaming (chunks : list Chunk) (failure : option Thrown).

(** The backend client: [null] when the credential is missing. *)
Inductive Client := GoogleGenAI (apiKey : string).

(** ** The state of [App] (lines 461-489)

    The [useState] cells, the two [useRef] cells
    ([originalPromptForChat], [testChatRef]) and the two
    [useLocalStorage] cells of the component, with one ghost field:
    [requests], the backend requests issued so far, oldest first. The
    three cells of the save dialog are left out: no handler below reads
    or writes them. *)
Record World := {
  adminSettings : AdminSettings;
  accessLevel : AccessLevel;
  formUserInput : string;
  formTone : string;
  formTargetAudience : string;
  generatedPrompt : string;
  isLoading : bool;
  error : option string;
  history : list HistoryItem;
  activeTab : ActiveTab;
  chatHistory : list ChatMessage;
  isChatLoading : bool;
  originalPromptForChat : string;
  testChatHistory : list ChatMessage;
  isTestChatLoading : bool;
  testChatRef : option Chat;
  requests : list Request
}.

Definition with_accessLevel (v : AccessLevel) (w : World) : World :=
  {| adminSettings := adminSettings w; accessLevel := v;
     formUserInput := formUserInput w; formTone := formTone w;
     formTargetAudience := formTargetAudience w;
     generatedPrompt := generatedPrompt w; isLoading := isLoading w;
     error := error w; history := history w; activeTab := activeTab w;
     chatHistory := chatHistory w; isChatLoading := isChatLoading w;
     originalPromptForChat := originalPromptForChat w;
     testChatHistory := testChatHistory w;
     isTestChatLoading := isTestChatLoading w;
     testChatRef := testChatRef w; requests := requests w |}.

Definition with_form (i t a : string) (w : World) : World :=
  {| adminSettings := adminSettings w; accessLevel := accessLevel w;
     formUserInput := i; formTone := t; formTargetAudience := a;
     generatedPrompt := generatedPrompt w; isLoading := isLoading w;
     error := error w; history := history w; activeTab := activeTab w;
     chatHistory := chatHistory w; isChatLoading := isChatLoading w;
     originalPromptForChat := originalPromptForChat w;
     testChatHistory := testChatHistory w;
     isTestChatLoading := isTestChatLoading w;
     testChatRef := testChatRef w; requests := requests w |}.

Definition with_generatedPrompt (v : string) (w : World) : World :=
  {| adminSettings := adminSettings w; accessLevel := accessLevel w;
     formUserInput := formUserInput w; formTone := formTone w;
     formTargetAudience := formTargetAudience w;
     generatedPrompt := v; isLoading := isLoading w;
     error := error w; history := history w; activeTab := activeTab w;
     chatHistory := chatHistory w; isChatLoading := isChatLoading w;
     originalPromptForChat := originalPromptForChat w;
     testChatHistory := testChatHistory w;
     isTestChatLoading := isTestChatLoading w;
     testChatRef := testChatRef w; requests := requests w |}.

Definition with_isLoading (v : bool) (w : World) : World :=
  {| adminSettings := adminSettings w; accessLevel := accessLevel w;
     formUserInput := formUserInput w; formTone := formTone w;
     formTargetAudience := formTargetAudience w;
     generatedPrompt := generatedPrompt w; isLoading := v;
     error := error w; history := history w; activeTab := activeTab w;
     chatHistory := chatHistory w; isChatLoading := isChatLoading w;
     originalPromptForChat := originalPromptForChat w;
     testChatHistory := testChatHistory w;
     isTestChatLoading := isTestChatLoading w;
     testChatRef := testChatRef w; requests := requests w |}.

Definition with_error (v : option string) (w : World) : World :=
  {| adminSettings := adminSettings w; accessLevel := accessLevel w;
     formUserInput := formUserInput w; formTone := formTone w;
     formTargetAudience := formTargetAudience w;
     generatedPrompt := generatedPrompt w; isLoading := isLoading w;
     error := v; history := history w; activeTab := activeTab w;
     chatHistory := chatHistory w; isChatLoading := isChatLoading w;
     originalPromptForChat := originalPromptForChat w;
     testChatHistory := testChatHistory w;
     isTestChatLoading := isTestChatLoading w;
     testChatRef := testChatRef w; requests := requests w |}.

Definition with_history (v : list HistoryItem) (w : World) : World :=
  {| adminSettings := adminSettings w; accessLevel := accessLevel w;
     formUserInput := formUserInput w; formTone := formTone w;
     formTargetAudience := formTargetAudience w;
     generatedPrompt := generatedPrompt w; isLoading := isLoading w;
     error := error w; history := v; activeTab := activeTab w;
     chatHistory := chatHistory w; isChatLoading := isChatLoading w;
     originalPromptForChat := originalPromptForChat w;
     testChatHistory := testChatHistory w;
     isTestChatLoading := isTestChatLoading w;
     testChatRef := testChatRef w; requests := requests w |}.

Definition with_activeTab (v : ActiveTab) (w : World) : World :=
  {| adminSettings := adminSettings w; accessLevel := accessLevel w;
     formUserInput := formUserInput w; formTone := formTone w;
     formTargetAudience := formTargetAudience w;
     generatedPrompt := generatedPrompt w; isLoading := isLoading w;
     error := error w; history := history w; activeTab := v;
     chatHistory := chatHistory w; isChatLoading := isChatLoading w;
     originalPromptForChat := originalPromptForChat w;
     testChatHistory := testChatHistory w;
     isTestChatLoading := isTestChatLoading w;
     testChatRef := testChatRef w; requests := requests w |}.

Definition with_chatHistory (v : list ChatMessage) (w : World) : World :=
  {| adminSettings := adminSettings w; accessLevel := accessLevel w;
     formUserInput := formUserInput w; formTone := formTone w;
     formTargetAudience := formTargetAudience w;
     generatedPrompt := generatedPrompt w; isLoading := isLoading w;
     error := error w; history := history w; activeTab := activeTab w;
     chatHistory := v; isChatLoading := isChatLoading w;
     originalPromptForChat := originalPromptForChat w;
     testChatHistory := testChatHistory w;
     isTestChatLoading := isTestChatLoading w;
     testChatRef := testChatRef w; requests := requests w |}.

Definition with_isChatLoading (v : bool) (w : World) : World :=
  {| adminSettings := adminSettings w; accessLevel := accessLevel w;
     formUserInput := formUserInput w; formTone := formTone w;
     formTargetAudience := formTargetAudience w;
     generatedPrompt := generatedPrompt w; isLoading := isLoading w;
     error := error w; history := history w; activeTab := activeTab w;
     chatHistory := chatHistory w; isChatLoading := v;
     originalPromptForChat := originalPromptForChat w;
     testChatHistory := testChatHistory w;
     isTestChatLoading := isTestChatLoading w;
     testChatRef := testChatRef w; requests := requests w |}.

Definition with_originalPromptForChat (v : string) (w : World) : World :=
  {| adminSettings := adminSettings w; accessLevel := accessLevel w;
     formUserInput := formUserInput w; formTone := formTone w;
     formTargetAudience := formTargetAudience w;
     generatedPrompt := generatedPrompt w; isLoading := isLoading w;
     error := error w; history := history w; activeTab := activeTab w;
     chatHistory := chatHistory w; isChatLoading := isChatLoading w;
     originalPromptForChat := v;
     testChatHistory := testChatHistory w;
     isTestChatLoading := isTestChatLoading w;
     testChatRef := testChatRef w; requests := requests w |}.

Definition with_testChatHistory (v : list ChatMessage) (w : World) : World :=
  {| adminSettings := adminSettings w; accessLevel := accessLevel w;
     formUserInput := formUserInput w; formTone := formTone w;
     formTargetAudience := formTargetAudience w;
     generatedPrompt := generatedPrompt w; isLoading := isLoading w;
     error := error w; history := history w; activeTab := activeTab w;
     chatHistory := chatHistory w; isChatLoading := isChatLoading w;
     originalPromptForChat := originalPromptForChat w;
     testChatHistory := v;
     isTestChatLoading := isTestChatLoading w;
     testChatRef := testChatRef w; requests := requests w |}.

Definition with_isTestChatLoading (v : bool) (w : World) : World :=
  {| adminSettings := adminSettings w; accessLevel := accessLevel w;
     formUserInput := formUserInput w; formTone := formTone w;
     formTargetAudience := formTargetAudience w;
     generatedPrompt := generatedPrompt w; isLoading := isLoading w;
     error := error w; history := history w; activeTab := activeTab w;
     chatHistory := chatHistory w; isChatLoading := isChatLoading w;
     originalPromptForChat := originalPromptForChat w;
     testChatHistory := testChatHistory w;
     isTestChatLoading := v;
     testChatRef := testChatRef w; requests := requests w |}.

Definition with_testChatRef (v : option Chat) (w : World) : World :=
  {| adminSettings := adminSettings w; accessLevel := accessLevel w;
     formUserInput := formUserInput w; formTone := formTone w;
     formTargetAudience := formTargetAudience w;
     generatedPrompt := generatedPrompt w; isLoading := isLoading w;
     error := error w; history := history w; activeTab := activeTab w;
     chatHistory := chatHistory w; isChatLoading := isChatLoading w;
     originalPromptForChat := originalPromptForChat w;
     testChatHistory := testChatHistory w;
     isTestChatLoading := isTestChatLoading w;
     testChatRef := v; requests := requests w |}.

Definition with_request (r : Request) (w : World) : World :=
  {| adminSettings := adminSettings w; accessLevel := accessLevel w;
     formUserInput := formUserInput w; formTone := formTone w;
     formTargetAudience := formTargetAudience w;
     generatedPrompt := generatedPrompt w; isLoading := isLoading w;
     error := error w; history := history w; activeTab := activeTab w;
     chatHistory := chatHistory w; isChatLoading := isChatLoading w;
     originalPromptForChat := originalPromptForChat w;
     testChatHistory := testChatHistory w;
     isTestChatLoading := isTestChatLoading w;
     testChatRef := testChatRef w; requests := requests w ++ [r] |}.

(** ** Handlers as programs

    A handler runs on a [Run]: the current state and the states it
    replaced, most recent first. Every [set...] call and every write to a
    ref is one [step]. A handler returns, throws to the nearest [catch],
    or breaks the render: a state updater that raises is outside every
    [try] of the handler and takes the component tree down. *)

Record Run := {
  world : World;
  published : list World
}.

Inductive Completion (A : Type) :=
| Returned (a : A)
| Threw (err : Thrown)
| RenderError.
Arguments Returned {A} a.
Arguments Threw {A} err.
Arguments RenderError {A}.

Definition Handler (A : Type) : Type := Run -> Completion A * Run.

#[global] Instance Handler_ret : MRet Handler :=
  fun A a r => (Returned a, r).

#[global] Instance Handler_bind : MBind Handler :=
  fun A B k m r =>
    match m r with
    | (Returned a, r') => k a r'
    | (Threw e, r') => (Threw e, r')
    | (RenderError, r') => (RenderError, r')
    end.

Definition throw {A} (err : Thrown) : Handler A :=
  fun r => (Threw err, r).

Definition get : Handler World :=
  fun r => (Returned (world r), r).

Definition step (f : World -> World) : Handler () :=
  fun r => (Returned (), {| world := f (world r); published := world r :: published r |}).

(** A functional update whose updater may raise. *)
Definition stepPartial (f : World -> option World) : Handler () :=
  fun r =>
    match f (world r) with
    | Some w' => (Returned (), {| world := w'; published := world r :: published r |})
    | None => (RenderError, r)
    end.

(** [try { body } catch (err) { handler err }] *)
Definition tryCatch {A} (body : Handler A) (handler : Thrown -> Handler A) : Handler A :=
  fun r =>
    match body r with
    | (Threw e, r') => handler e r'
    | other => other
    end.

(** [try { body } finally { cleanup }] *)
Definition tryFinally {A} (body : Handler A) (cleanup : Handler ()) : Handler A :=
  fun r =>
    match body r with
    | (RenderError, r') => (RenderError, r')
    | (c, r') =>
        match cleanup r' with
        | (Returned _, r'') => (c, r'')
        | (Threw e, r'') => (Threw e, r'')
        | (RenderError, r'') => (RenderError, r'')
        end
    end.

(** [for await (const chunk of stream) { acc = body acc chunk }]: the
    local the loop assigns is threaded as [acc]; a stream that fails
    throws once its chunks are through. *)
Fixpoint forAwait {A} (chunks : list Chunk) (failure : option Thrown)
    (body : A -> Chunk -> Handler A) (acc : A) : Handler A :=
  match chunks with
  | [] => match failure with
          | None => mret acc
          | Some e => throw e
          end
  | c :: rest => acc' ← body acc c; forAwait rest failure body acc'
  end.

(** Issue a request and await the stream. *)
Definition awaitStream (req : Request) (reply : Reply)
    : Handler (list Chunk * option Thrown) :=
  step (with_request req);;
  match reply with
  | Rejected e => throw e
  | Streaming cs f => mret (cs, f)
  end.

(** A handler is invoked on the state of the render that created it. *)
Definition invoke (h : World -> Handler ()) (w : World) : Completion () * Run :=
  h w {| world := w; published := [] |}.

Definition final (res : Completion () * Run) : World := world (snd res).

(** Every state of a run, oldest first, the final one last. *)
Definition trace (res : Completion () * Run) : list World :=
  reverse (world (snd res) :: published (snd res)).

(** ** JavaScript values *)

(** [if (chunkText)]: undefined and the empty string are falsy. *)
Definition truthy (t : option string) : bool :=
  match t with
  | Some (String _ _) => true
  | _ => false
  end.

Definition NL : string := String "010"%char "".

(** [arr[arr.length - 1].content = c] on a copy of [arr]: on the empty
    array [arr[-1]] is undefined and the assignment raises a TypeError.
    The message object is shared with the previous array; only the
    resulting list of contents is observed here. *)
Definition setLastContent (c : string) (arr : list ChatMessage)
    : option (list ChatMessage) :=
  match arr with
  | [] => None
  | _ => Some (alter (fun m => {| role := role m; content := c |})
                     (length arr - 1)%nat arr)
  end.

(** ** The handlers of [App] *)

(** Lines 504-510. *)
Definition resetChatStates : Handler () :=
  step (with_chatHistory []);;
  step (with_testChatHistory []);;
  step (with_testChatRef None);;
  step (with_activeTab refine);;
  step (with_error None).

(** The setter [useLocalStorage] returns for the history (lines 62-70):
    a function argument is applied to the [storedValue] of the render
    that created the setter. The write-through to [localStorage] is not
    observed by any handler and is left out. *)
Definition setHistory (storedValue : list HistoryItem)
    (value : list HistoryItem -> list HistoryItem) : Handler () :=
  step (with_history (value storedValue)).

(** Lines 528-532. *)
Definition fullPrompt (input genTone genAudience : string) : string :=
  "Generate a system prompt for an AI assistant." +:+ NL +:+
  "      " +:+ NL +:+
  "            **Assistant's Purpose:** " +:+ input +:+ NL +:+
  "            **Desired Tone:** " +:+ genTone +:+ NL +:+
  "            **Target Audience:** " +:+ genAudience.

(** Lines 543-549: one turn of the generation loop. *)
Definition generateChunk (finalPrompt : string) (chunk : Chunk) : Handler string :=
  match text chunk with
  | Some chunkText =>
      if truthy (Some chunkText) then
        step (fun w => with_generatedPrompt (generatedPrompt w +:+ chunkText) w);;
        mret (finalPrompt +:+ chunkText)
      else mret finalPrompt
  | None => mret finalPrompt
  end.

(** Lines 527-567, the [try] statement of [handleGeneratePrompt].
    [reply] is what the backend answers, [uuid] what
    [crypto.randomUUID()] returns and [now] what [Date.now()] returns. *)
Definition generateTry (input genTone genAudience : string)
    (reply : Reply) (uuid : string) (now : Z) (render : World) : Handler () :=
  tryFinally
    (tryCatch
       (stream ← awaitStream
          (GenerateContentStream "gemini-2.5-flash"
             (fullPrompt input genTone genAudience)
             GENERATE_SYSTEM_INSTRUCTION) reply;
        finalPrompt ← forAwait stream.1 stream.2 generateChunk "";
        step (with_originalPromptForChat finalPrompt);;
        setHistory (history render)
          (fun prev =>
             {| id := uuid; prompt := finalPrompt; timestamp := now;
                userInput := input; tone := genTone;
                targetAudience := genAudience |} :: take 49 prev))
       (fun err => step (with_error (Some (errorMessage err)))))
    (step (with_isLoading false)).

(** Lines 512-568. *)
Definition handleGeneratePrompt (ai : option Client)
    (input genTone genAudience : string)
    (reply : Reply) (uuid : string) (now : Z) (render : World) : Handler () :=
  match ai with
  | None => step (with_error (Some "AI client not initialized. Please configure your API key."))
  | Some _ =>
      step (with_isLoading true);;
      step (with_error None);;
      step (with_generatedPrompt "");;
      resetChatStates;;
      generateTry input genTone genAudience reply uuid now render
  end.

(** Lines 581-588. *)
Definition handleSelectHistory (item : HistoryItem) (render : World) : Handler () :=
  step (with_form (userInput item) (tone item) (targetAudience item));;
  step (with_generatedPrompt (prompt item));;
  step (with_originalPromptForChat (prompt item));;
  resetChatStates.

(** Lines 590-592. *)
Definition handleClearHistoryItem (id0 : string) (render : World) : Handler () :=
  setHistory (history render)
    (fun prev => filter (fun item => id item ≠ id0) prev).

(** Lines 594-598; [confirmed] is the answer to [window.confirm]. *)
Definition handleClearAllHistory (confirmed : bool) (render : World) : Handler () :=
  if confirmed then setHistory (history render) (fun _ => []) else mret ().

(** Lines 621-631: one turn of the refine loop. *)
Definition refineChunk (finalResponse : string) (chunk : Chunk) : Handler string :=
  match text chunk with
  | Some chunkText =>
      if truthy (Some chunkText) then
        stepPartial (fun w =>
          newHistory ← setLastContent (finalResponse +:+ chunkText) (chatHistory w);
          Some (with_chatHistory newHistory w));;
        mret (finalResponse +:+ chunkText)
      else mret finalResponse
  | None => mret finalResponse
  end.

(** Lines 600-646. *)
Definition handleSendMessage (ai : option Client) (message : string)
    (reply : Reply) (render : World) : Handler () :=
  match ai with
  | None => step (with_error (Some "AI client not initialized. Please configure your API key."))
  | Some _ =>
      step (with_isChatLoading true);;
      step (with_chatHistory
              (chatHistory render ++
               [ {| role := user; content := message |};
                 {| role := model; content := "" |} ]));;
      tryFinally
        (tryCatch
           (w ← get;
            let chat := {| chat_systemInstruction := REFINE_SYSTEM_INSTRUCTION;
                           chat_history := [ {| role := model;
                                                content := originalPromptForChat w |} ] |} in
            stream ← awaitStream (SendMessageStream chat message) reply;
            finalResponse ← forAwait stream.1 stream.2 refineChunk "";
            step (with_generatedPrompt finalResponse);;
            step (with_originalPromptForChat finalResponse))
           (fun err =>
              stepPartial (fun w =>
                newHistory ← setLastContent ("Error: " +:+ errorMessage err) (chatHistory w);
                Some (with_chatHistory newHistory w))))
        (step (with_isChatLoading false))
  end.

(** Lines 669-679: one turn of the test loop. *)
Definition testChunk (finalResponse : string) (chunk : Chunk) : Handler string :=
  match text chunk with
  | Some chunkText =>
      if truthy (Some chunkText) then
        stepPartial (fun w =>
          newHistory ← setLastContent (finalResponse +:+ chunkText) (testChatHistory w);
          Some (with_testChatHistory newHistory w));;
        mret (finalResponse +:+ chunkText)
      else mret finalResponse
  | None => mret finalResponse
  end.

(** Lines 666-679: the message goes to the handle and the answer is
    streamed into the placeholder. *)
Definition testStream (chat : Chat) (message : string) (reply : Reply) : Handler () :=
  stream ← awaitStream (SendMessageStream chat message) reply;
  forAwait stream.1 stream.2 testChunk "";;
  mret ().

(** Lines 648-691. The handle is created on the first message of a
    thread, with the prompt of the render as its instruction, and used
    as it is afterwards. *)
Definition handleSendTestMessage (ai : option Client) (message : string)
    (reply : Reply) (render : World) : Handler () :=
  match ai, truthy (Some (generatedPrompt render)) with
  | Some _, true =>
      step (with_isTestChatLoading true);;
      step (fun w => with_testChatHistory
                       (testChatHistory w ++
                        [ {| role := user; content := message |};
                          {| role := model; content := "" |} ]) w);;
      tryFinally
        (tryCatch
           (w ← get;
            chat ← match testChatRef w with
                   | Some chat => mret chat
                   | None =>
                       let chat := {| chat_systemInstruction :=
                                        PromptText (generatedPrompt render);
                                      chat_history := [] |} in
                       step (with_testChatRef (Some chat));; mret chat
                   end;
            testStream chat message reply)
           (fun err =>
              stepPartial (fun w =>
                newHistory ← setLastContent ("Error: " +:+ errorMessage err)
                                            (testChatHistory w);
                Some (with_testChatHistory newHistory w))))
        (step (with_isTestChatLoading false))
  | _, _ => step (with_error (Some "AI client not initialized or no prompt generated."))
  end.

(** Lines 693-696. *)
Definition handleClearTestChat (render : World) : Handler () :=
  step (with_testChatHistory []);;
  step (with_testChatRef None).

(** Lines 738-740. *)
Definition handleLogout (render : World) : Handler () :=
  step (with_accessLevel none).

(** ** The access gate (lines 75-136) *)

Module AccessGate.

(** What [new Date()] answers to the three getters the gate calls:
    day of the month, month counted from 0, full year. *)
Record Date := {
  getDate : Z;
  getMonth : Z;
  getFullYear : Z
}.

(** [String(n)] for an integer [n]: its decimal digits, after a minus
    sign when it is negative. *)
Definition String_of (n : Z) : string := NilZero.string_of_int (Z.to_int n).

(** [n] characters of [pad] repeated; [cur] is what is left of the
    current copy. *)
Fixpoint fill (n : nat) (pad cur : string) : string :=
  match n with
  | O => ""
  | S n' =>
      match cur with
      | String c rest => String c (fill n' pad rest)
      | EmptyString =>
          match pad with
          | String c rest => String c (fill n' pad rest)
          | EmptyString => ""
          end
      end
  end.

(** [s.padStart(targetLength, padString)] *)
Definition padStart (targetLength : nat) (padString : string) (s : string) : string :=
  if (targetLength <=? String.length s)%nat then s
  else fill (targetLength - String.length s) padString padString +:+ s.

(** Lines 80-86. *)
Definition getClientCode (settings : AdminSettings) (date : Date) : string :=
  let day := padStart 2 "0" (String_of (getDate date)) in
  let month := padStart 2 "0" (String_of (getMonth date + 1)%Z) in
  let year := getFullYear date in
  accessSecret settings +:+ "-" +:+ day +:+ "-" +:+ month +:+ "-" +:+ String_of year.

(** The local state of the component (lines 76-78). *)
Record Gate := {
  code : string;
  gateError : string;
  showPassword : bool
}.

Definition initialGate : Gate :=
  {| code := ""; gateError := ""; showPassword := false |}.

(** Lines 88-97; [date] is what [new Date()] returns at the submit. *)
Definition handleSubmit (date : Date) (s : World * Gate) : World * Gate :=
  let (w, g) := s in
  if decide (code g = ADMIN_CODE) then (with_accessLevel admin w, g)
  else if decide (code g = getClientCode (adminSettings w) date)
       then (with_accessLevel client w, g)
       else (w, {| code := code g; gateError := "Invalid access code.";
                   showPassword := showPassword g |}).

(** What the user can do at the rendered gate. *)
Inductive GateEvent :=
| ChangeCode (value : string)
| ToggleShowPassword
| Submit (date : Date)
| ContinueAsGuest.

(** The controls the gate renders: the guest button is there only when
    the gate is not enabled (lines 125-132). *)
Definition offered (settings : AdminSettings) (ev : GateEvent) : bool :=
  match ev with
  | ContinueAsGuest => negb (isGateEnabled settings)
  | _ => true
  end.

Definition gateStep (ev : GateEvent) (s : World * Gate) : World * Gate :=
  match ev with
  | ChangeCode value =>
      (s.1, {| code := value; gateError := ""; showPassword := showPassword s.2 |})
  | ToggleShowPassword =>
      (s.1, {| code := code s.2; gateError := gateError s.2;
               showPassword := negb (showPassword s.2) |})
  | Submit date => handleSubmit date s
  | ContinueAsGuest => (with_accessLevel client s.1, s.2)
  end.

(** [App] renders the gate only while the access level is [none]
    (lines 742-744); an event reaches the gate when the gate is rendered
    and offers the control. *)
Definition gateDispatch (ev : GateEvent) (s : World * Gate) : option (World * Gate) :=
  if decide (accessLevel s.1 = none) then
    if offered (adminSettings s.1) ev then Some (gateStep ev s) else None
  else None.

(** A session at the gate: events in order, until the gate is left.
    Once the access level is no longer [none] the gate is gone and the
    remaining events have nowhere to go. *)
Fixpoint gateRun (evs : list GateEvent) (s : World * Gate) : option (World * Gate) :=
  match evs with
  | [] => Some s
  | ev :: rest =>
      match gateDispatch ev s with
      | Some s' =>
          if decide (accessLevel s'.1 = none) then gateRun rest s'
          else match rest with [] => Some s' | _ => None end
      | None => None
      end
  end.

Definition entersCode (ev : GateEvent) : bool :=
  match ev with
  | ChangeCode _ => true
  | _ => false
  end.

(** The last character of a string. *)
Fixpoint lastChar (s : string) : option ascii :=
  match s with
  | EmptyString => None
  | String c EmptyString => Some c
  | String _ rest => lastChar rest
  end.

Definition isDigit (c : ascii) : bool :=
  let n := nat_of_ascii c in ((48 <=? n) && (n <=? 57))%nat.

Definition endsWithDigit (s : string) : Prop :=
  ∃ c, lastChar s = Some c ∧ isDigit c = true.

(** ** Sample inputs for the gate *)

Definition sampleDate : Date :=
  {| getDate := 2; getMonth := 10; getFullYear := 2026 |}.

(** The application as a visitor finds it, with the gate enabled or
    not. *)
Definition gateWorld (enabled : bool) : World :=
  {| adminSettings := {| accessSecret := "CLIENT"; isGateEnabled := enabled |};
     accessLevel := none;
     formUserInput := ""; formTone := "Formal"; formTargetAudience := "";
     generatedPrompt := ""; isLoading := false; error := None; history := [];
     activeTab := refine; chatHistory := []; isChatLoading := false;
     originalPromptForChat := ""; testChatHistory := [];
     isTestChatLoading := false; testChatRef := None; requests := [] |}.

Definition gateWith (c : string) : Gate :=
  {| code := c; gateError := ""; showPassword := false |}.

End AccessGate.

(** ** Vocabulary of the properties *)

(** The text fragments a stream delivers, in order, and their
    concatenation. *)
Definition fragments (chunks : list Chunk) : list string := omap text chunks.

Definition concatFragments (chunks : list Chunk) : string :=
  foldr String.append "" (fragments chunks).

(** The chunks a reply delivers before it ends or fails, and the value
    it fails with, if it does. *)
Definition chunksOf (reply : Reply) : list Chunk :=
  match reply with
  | Rejected _ => []
  | Streaming cs _ => cs
  end.

Definition failureOf (reply : Reply) : option Thrown :=
  match reply with
  | Rejected e => Some e
  | Streaming _ f => f
  end.

(** [extends P r r']: the run [r'] continues [r], and [P] holds of
    every state replaced since [r] and of the current one. *)
Definition extends (P : World → Prop) (r r' : Run) : Prop :=
  ∃ new, published r' = new ++ published r ∧ Forall P new ∧ P (world r').

(** A program keeps [P] when, started in a state where [P] holds, it
    only ever publishes states where [P] holds. *)
Definition keeps {A} (P : World → Prop) (h : Handler A) : Prop :=
  ∀ r, P (world r) → extends P r (h r).2.

(** A generation and a refine turn, from the state they are started in
    to the run they produce. *)
Definition generation (ai : option Client) (input genTone genAudience : string)
    (reply : Reply) (uuid : string) (now : Z) (w : World) : Completion () * Run :=
  invoke (handleGeneratePrompt ai input genTone genAudience reply uuid now) w.

Definition refineTurn (ai : option Client) (message : string) (reply : Reply)
    (w : World) : Completion () * Run :=
  invoke (handleSendMessage ai message reply) w.

(** A generation that runs to completion, and the history item it
    creates (lines 553-560). *)
Record Completed := {
  c_input : string;
  c_tone : string;
  c_audience : string;
  c_chunks : list Chunk;
  c_uuid : string;
  c_now : Z
}.

Definition newItem (g : Completed) : HistoryItem :=
  {| id := c_uuid g; prompt := concatFragments (c_chunks g);
     timestamp := c_now g; userInput := c_input g; tone := c_tone g;
     targetAudience := c_audience g |}.


Definition generate (ai : option Client) (g : Completed) (w : World) : World :=
  final (generation ai (c_input g) (c_tone g) (c_audience g)
           (Streaming (c_chunks g) None) (c_uuid g) (c_now g) w).

(** Generations one after the other, each on the state the previous one
    left. *)
Definition generations (ai : option Client) (gs : list Completed) (w : World) : World :=
  foldl (fun w g => generate ai g w) w gs.

(** Both chat threads empty and no test conversation handle. *)
Definition chatsReset (w : World) : Prop :=
  chatHistory w = [] ∧ testChatHistory w = [] ∧ testChatRef w = None.

(** ** Sample inputs *)

Definition sampleClient : Client := GoogleGenAI "key".

Definition sampleWorld : World :=
  {| adminSettings := {| accessSecret := "CLIENT"; isGateEnabled := true |};
     accessLevel := client;
     formUserInput := "A vacation planner";
     formTone := "Friendly";
     formTargetAudience := "Busy parents";
     generatedPrompt := "old prompt";
     isLoading := false;
     error := None;
     history := [];
     activeTab := test;
     chatHistory := [ {| role := user; content := "shorter" |};
                      {| role := model; content := "old prompt" |} ];
     isChatLoading := false;
     originalPromptForChat := "old prompt";
     testChatHistory := [ {| role := user; content := "hello" |};
                          {| role := model; content := "hi" |} ];
     isTestChatLoading := false;
     testChatRef := Some {| chat_systemInstruction := PromptText "old prompt";
                            chat_history := [] |};
     requests := [] |}.

(** A stream that delivers two fragments and then breaks. *)
Definition brokenStream : Reply :=
  Streaming [ {| text := Some "par" |}; {| text := None |}; {| text := Some "tial" |} ]
            (Some (ErrorObject "network down")).

(** Fifty-one generations are told apart by a two-digit identifier. *)
Definition sampleGeneration (n : nat) : Completed :=
  {| c_input := "A vacation planner"; c_tone := "Friendly";
     c_audience := "Busy parents";
     c_chunks := [ {| text := Some "You plan vacations." |} ];
     c_uuid := String (ascii_of_nat (48 + n / 10)) (String (ascii_of_nat (48 + n mod 10)) "");
     c_now := Z.of_nat n |}.

(** A history item with identifier [i] and prompt [p]. *)
Definition sampleItem (i p : string) : HistoryItem :=
  {| id := i; prompt := p; timestamp := 1700000000000; userInput := "A tutor";
     tone := "Formal"; targetAudience := "Students" |}.

(** ** The rest of the component *)

(** Line 29. *)
Definition TONES : list string :=
  ["Formal"; "Casual"; "Humorous"; "Authoritative"; "Friendly"; "Empathetic"].

(** Lines 570-573: the form hands the three cells of its render to the
    generation. *)
Definition handleFormSubmit (ai : option Client)
    (reply : Reply) (uuid : string) (now : Z) (render : World) : Handler () :=
  handleGeneratePrompt ai (formUserInput render) (formTone render)
    (formTargetAudience render) reply uuid now render.

(** Lines 575-579: a recommended card writes its text to the
    description cell and starts a generation with a fixed tone and
    audience. *)
Definition handleRecommendedClick (ai : option Client) (title description : string)
    (reply : Reply) (uuid : string) (now : Z) (render : World) : Handler () :=
  let input := title +:+ ". " +:+ description in
  step (fun w => with_form input (formTone w) (formTargetAudience w) w);;
  handleGeneratePrompt ai input "Professional" "General users" reply uuid now render.

(** *** What is rendered *)

(** Lines 212-255: the four faces of the output panel. *)
Inductive OutputView :=
| Skeleton
| ErrorBox (message : string)
| Placeholder
| PromptBox (shown : string).

Definition PromptOutput (prompt0 : string) (loading : bool) (error0 : option string)
    : OutputView :=
  if loading && negb (truthy (Some prompt0)) then Skeleton
  else if truthy error0 then ErrorBox (default "" error0)
  else if negb (truthy (Some prompt0)) then Placeholder
  else PromptBox prompt0.

(** Line 851. *)
Definition outputView (w : World) : OutputView :=
  PromptOutput (generatedPrompt w) (isLoading w) (error w).

(** Line 856: the refine and test panels are rendered for a non-empty
    prompt while no generation is running. *)
Definition panelsShown (w : World) : bool :=
  truthy (Some (generatedPrompt w)) && negb (isLoading w).

(** Lines 742-757: the gate while the level is [none], else the main
    page, with the admin panel for the admin level only. *)
Inductive Screen :=
| GateScreen
| MainScreen (adminPanel : bool).

Definition screen (w : World) : Screen :=
  if decide (accessLevel w = none) then GateScreen
  else MainScreen (bool_decide (accessLevel w = admin)).

(** *** The admin panel (lines 138-179) *)


Module AdminPanel.








(** A date of the calendar, as [new Date()] gives them. *)
Definition calendarDate (date : AccessGate.Date) : Prop :=
  (1 ≤ AccessGate.getDate date ≤ 31)%Z ∧ (0 ≤ AccessGate.getMonth date ≤ 11)%Z.

End AdminPanel.

(** *** Saving a conversation (lines 428-457, 698-736) *)

Module SaveChat.

(** The three cells of the save dialog (lines 487-489). *)
Record Modal := {
  isSaveModalOpen : bool;
  chatToSave : option ActiveTab;
  filename : string
}.

Definition closedModal : Modal :=
  {| isSaveModalOpen := false; chatToSave := None; filename := "" |}.

(** The thread name as it appears in a template string. *)
Definition typeName (t : ActiveTab) : string :=
  match t with
  | refine => "refine"
  | test => "test"
  end.

(** Lines 698-703; [isoDay] is what
    [new Date().toISOString().split('T')[0]] evaluates to. *)
Definition handleOpenSaveModal (type0 : ActiveTab) (isoDay : string) (m : Modal) : Modal :=
  {| isSaveModalOpen := true;
     chatToSave := Some type0;
     filename := typeName type0 +:+ "-conversation-" +:+ isoDay +:+ ".txt" |}.

Definition setFilename (name : string) (m : Modal) : Modal :=
  {| isSaveModalOpen := isSaveModalOpen m; chatToSave := chatToSave m;
     filename := name |}.

(** [s.endsWith(suffix)] *)
Definition endsWith (s suffix : string) : bool :=
  bool_decide (list_ascii_of_string suffix `suffix_of` list_ascii_of_string s).

(** Line 728. *)
Definition downloadName (name : string) : string :=
  if endsWith name ".txt" then name else name +:+ ".txt".

(** Lines 719-722: what one message adds to the file. *)
Definition appendMessage (fileContent : string) (msg : ChatMessage) : string :=
  let prefix0 := match role msg with
                 | user => "User:"
                 | model => "Assistant:"
                 end in
  fileContent +:+ (prefix0 +:+ NL +:+ content msg +:+ NL +:+ NL).

(** Lines 709-722; [localeDate] is what [new Date().toLocaleString()]
    returns. *)
Definition buildFileContent (localeDate promptForContext : string)
    (historyToSave : list ChatMessage) : string :=
  let fileContent := "Conversation from AI Prompt Generator" +:+ NL in
  let fileContent := fileContent +:+ ("Date: " +:+ localeDate +:+ NL) in
  let fileContent := fileContent +:+ (NL +:+ "====================" +:+ NL) in
  let fileContent := fileContent +:+ ("SYSTEM PROMPT USED:" +:+ NL) in
  let fileContent := fileContent +:+ ("====================" +:+ NL +:+ NL) in
  let fileContent := fileContent +:+ (promptForContext +:+ NL +:+ NL) in
  let fileContent := fileContent +:+ ("====================" +:+ NL) in
  let fileContent := fileContent +:+ ("CONVERSATION:" +:+ NL) in
  let fileContent := fileContent +:+ ("====================" +:+ NL +:+ NL) in
  foldl appendMessage fileContent historyToSave.

(** The file handed to the browser. *)
Record Download := {
  download : string;
  blob : string
}.

(** Lines 705-736. *)
Definition handleSaveToFile (localeDate : string) (s : World * Modal)
    : Download * (World * Modal) :=
  let historyToSave :=
    match chatToSave s.2 with
    | Some refine => chatHistory s.1
    | _ => testChatHistory s.1
    end in
  let promptForContext :=
    match chatToSave s.2 with
    | Some refine => originalPromptForChat s.1
    | _ => generatedPrompt s.1
    end in
  ({| download := downloadName (filename s.2);
      blob := buildFileContent localeDate promptForContext historyToSave |},
   (s.1, {| isSaveModalOpen := false; chatToSave := None; filename := filename s.2 |})).

(** The text of the file in one piece: the heading, then the messages. *)
Definition heading (localeDate promptForContext : string) : string :=
  "Conversation from AI Prompt Generator" +:+ NL +:+
  "Date: " +:+ localeDate +:+ NL +:+
  NL +:+ "====================" +:+ NL +:+
  "SYSTEM PROMPT USED:" +:+ NL +:+
  "====================" +:+ NL +:+ NL +:+
  promptForContext +:+ NL +:+ NL +:+
  "====================" +:+ NL +:+
  "CONVERSATION:" +:+ NL +:+
  "====================" +:+ NL +:+ NL.

Definition messageText (msg : ChatMessage) : string :=
  (match role msg with
   | user => "User:"
   | model => "Assistant:"
   end) +:+ NL +:+ content msg +:+ NL +:+ NL.

Definition transcript (msgs : list ChatMessage) : string :=
  foldr (fun msg rest => messageText msg +:+ rest) "" msgs.

End SaveChat.

(** *** The storage hook (lines 51-73) *)

Module LocalStorage.

(** [window.localStorage]: its items, and whether the browser lets the
    page read and write them. *)
Record Store := {
  items : gmap string string;
  readable : bool;
  writable : bool
}.

(** [getItem]: [None] when the call throws, [Some None] for [null]. *)
Definition getItem (key : string) (st : Store) : option (option string) :=
  if readable st then Some (items st !! key) else None.

(** [setItem]: [None] when the call throws. *)
Definition setItem (key value : string) (st : Store) : option Store :=
  if writable st
  then Some {| items := <[key:=value]> (items st);
               readable := readable st; writable := writable st |}
  else None.

Section Hook.
Context {T : Type}.

(** [JSON.stringify] and [JSON.parse] at the type of the cell; [parse]
    gives [None] where [JSON.parse] throws. *)
Context (stringify : T → string) (parse : string → option T).

(** Lines 52-60: the value the cell starts with. *)
Definition initialState (key : string) (initialValue : T) (st : Store) : T :=
  match getItem key st with
  | Some item =>
      if truthy item then
        match parse (default "" item) with
        | Some v => v
        | None => initialValue
        end
      else initialValue
  | None => initialValue
  end.

(** Lines 62-70: the new value of the cell and the storage after the
    call; [value] is a value or a function of the [storedValue] of the
    render. The cell is set before the item is written, and a write
    that throws is caught. *)
Definition setValue (key : string) (storedValue : T) (value : T + (T → T))
    (st : Store) : T * Store :=
  let valueToStore := match value with
                      | inl v => v
                      | inr f => f storedValue
                      end in
  (valueToStore, default st (setItem key (stringify valueToStore) st)).

End Hook.

(** [JSON.stringify] and [JSON.parse] on booleans. *)
Definition stringifyBool (b : bool) : string := if b then "true" else "false".

Definition parseBool (s : string) : option bool :=
  if decide (s = "true") then Some true
  else if decide (s = "false") then Some false
  else None.

Definition sampleStore : Store :=
  {| items := {[ "other" := "false" ]}; readable := true; writable := true |}.

End LocalStorage.

(** *** Sequences of history events *)

Inductive HistoryEvent :=
| Generated (g : Completed)
| Deleted (id0 : string)
| ClearedAll (confirmed : bool)
| Selected (item : HistoryItem).

Definition historyStep (ai : option Client) (ev : HistoryEvent) (w : World) : World :=
  match ev with
  | Generated g => generate ai g w
  | Deleted id0 => final (invoke (handleClearHistoryItem id0) w)
  | ClearedAll confirmed => final (invoke (handleClearAllHistory confirmed) w)
  | Selected item => final (invoke (handleSelectHistory item) w)
  end.

Definition historyRun (ai : option Client) (evs : list HistoryEvent) (w : World) : World :=
  foldl (fun w ev => historyStep ai ev w) w evs.

(** The identifiers [crypto.randomUUID()] hands out in a sequence. *)
Definition generatedIds (evs : list HistoryEvent) : list string :=
  omap (fun ev => match ev with
                  | Generated g => Some (c_uuid g)
                  | _ => None
                  end) evs.

(** *** Handlers that run while another one is suspended

    An [async] handler gives way at each [await]: handlers started by
    the user in the meantime run to completion on the state they find,
    and the suspended one resumes with the closure it was created
    with. *)

(** [other] runs on the render of the current state; what it returns or
    throws is its own business. *)
Definition meanwhile (other : World → Handler ()) : Handler () :=
  fun r => (Returned (), snd (other (world r) r)).

(** [forAwait] where [others] run before the chunks arrive, one per
    chunk, as long as there are any. *)
Fixpoint forAwaitMeanwhile {A} (others : list (World → Handler ()))
    (chunks : list Chunk) (failure : option Thrown)
    (body : A -> Chunk -> Handler A) (acc : A) : Handler A :=
  match chunks with
  | [] => match failure with
          | None => mret acc
          | Some e => throw e
          end
  | c :: rest =>
      match others with
      | other :: others' =>
          meanwhile other;;
          acc' ← body acc c; forAwaitMeanwhile others' rest failure body acc'
      | [] => acc' ← body acc c; forAwaitMeanwhile [] rest failure body acc'
      end
  end.

(** [awaitStream] where [pending] run while the request is out. *)
Definition awaitStreamMeanwhile (pending : list (World → Handler ()))
    (req : Request) (reply : Reply) : Handler (list Chunk * option Thrown) :=
  step (with_request req);;
  foldr (fun other rest => meanwhile other;; rest) (mret ()) pending;;
  match reply with
  | Rejected e => throw e
  | Streaming cs f => mret (cs, f)
  end.

(** [handleGeneratePrompt] with what happens at its awaits. *)
Definition handleGeneratePromptMeanwhile
    (pending others : list (World → Handler ())) (ai : option Client)
    (input genTone genAudience : string)
    (reply : Reply) (uuid : string) (now : Z) (render : World) : Handler () :=
  match ai with
  | None => step (with_error (Some "AI client not initialized. Please configure your API key."))
  | Some _ =>
      step (with_isLoading true);;
      step (with_error None);;
      step (with_generatedPrompt "");;
      resetChatStates;;
      tryFinally
        (tryCatch
           (stream ← awaitStreamMeanwhile pending
              (GenerateContentStream "gemini-2.5-flash"
                 (fullPrompt input genTone genAudience)
                 GENERATE_SYSTEM_INSTRUCTION) reply;
            finalPrompt ← forAwaitMeanwhile others stream.1 stream.2 generateChunk "";
            step (with_originalPromptForChat finalPrompt);;
            setHistory (history render)
              (fun prev =>
                 {| id := uuid; prompt := finalPrompt; timestamp := now;
                    userInput := input; tone := genTone;
                    targetAudience := genAudience |} :: take 49 prev))
           (fun err => step (with_error (Some (errorMessage err)))))
        (step (with_isLoading false))
  end.

(** [handleSendTestMessage] with what happens at its awaits. *)
Definition handleSendTestMessageMeanwhile
    (pending others : list (World → Handler ())) (ai : option Client)
    (message : string) (reply : Reply) (render : World) : Handler () :=
  match ai, truthy (Some (generatedPrompt render)) with
  | Some _, true =>
      step (with_isTestChatLoading true);;
      step (fun w => with_testChatHistory
                       (testChatHistory w ++
                        [ {| role := user; content := message |};
                          {| role := model; content := "" |} ]) w);;
      tryFinally
        (tryCatch
           (w ← get;
            chat ← match testChatRef w with
                   | Some chat => mret chat
                   | None =>
                       let chat := {| chat_systemInstruction :=
                                        PromptText (generatedPrompt render);
                                      chat_history := [] |} in
                       step (with_testChatRef (Some chat));; mret chat
                   end;
            stream ← awaitStreamMeanwhile pending (SendMessageStream chat message) reply;
            forAwaitMeanwhile others stream.1 stream.2 testChunk "";;
            mret ())
           (fun err =>
              stepPartial (fun w =>
                newHistory ← setLastContent ("Error: " +:+ errorMessage err)
                                            (testChatHistory w);
                Some (with_testChatHistory newHistory w))))
        (step (with_isTestChatLoading false))
  | _, _ => step (with_error (Some "AI client not initialized or no prompt generated."))
  end.

(** A world with a prompt and a test conversation under way. *)
Definition testingWorld : World :=
  with_history [sampleItem "a" "one"; sampleItem "b" "two"] sampleWorld.

(** *** The form of a chat panel (lines 305-311 and 369-375) *)

Module ChatPanel.

Section Submit.

(** Which characters [trim] takes for white space. *)
Context (isWhiteSpace : ascii → bool).

Fixpoint trimStart (s : string) : string :=
  match s with
  | String c rest => if isWhiteSpace c then trimStart rest else s
  | EmptyString => EmptyString
  end.

Fixpoint trimEnd (s : string) : string :=
  match s with
  | EmptyString => EmptyString
  | String c rest =>
      match trimEnd rest with
      | EmptyString => if isWhiteSpace c then EmptyString else String c EmptyString
      | kept => String c kept
      end
  end.

(** [s.trim()] *)
Definition trim (s : string) : string := trimEnd (trimStart s).

(** [handleSubmit] of either panel: what is run, and what the input
    holds afterwards. [message] is the input, [loading] the loading flag
    the panel was given. *)
Definition handleSubmit (message : string) (loading : bool)
    (onSendMessage : string → World → Handler ()) (render : World)
    : Handler () * string :=
  if truthy (Some (trim message)) && negb loading
  then (onSendMessage message render, "")
  else (mret (), message).


End Submit.

End ChatPanel.

(** * Properties *)

(** ** Strings *)

Lemma string_app_nil_r (s : string) : s +:+ "" = s.
Proof. induction s as [|a s IH]; [done|]. unfold String.app in *. simpl. by rewrite IH. Qed.

Lemma string_app_assoc (s t u : string) : (s +:+ t) +:+ u = s +:+ t +:+ u.
Proof. induction s as [|a s IH]; [done|]. unfold String.app in *. simpl. by rewrite IH. Qed.

Lemma string_app_nil_l (s : string) : "" +:+ s = s.
Proof. done. Qed.

Lemma string_app_cons (a : ascii) (s t : string) : String a s +:+ t = String a (s +:+ t).
Proof. done. Qed.

Lemma concatFragments_nil : concatFragments [] = "".
Proof. done. Qed.

Lemma concatFragments_cons_Some s rest :
  concatFragments ({| text := Some s |} :: rest) = s +:+ concatFragments rest.
Proof. done. Qed.

Lemma concatFragments_cons_None rest :
  concatFragments ({| text := None |} :: rest) = concatFragments rest.
Proof. done. Qed.

Lemma concatFragments_app cs1 cs2 :
  concatFragments (cs1 ++ cs2) = concatFragments cs1 +:+ concatFragments cs2.
Proof.
  induction cs1 as [|[[t|]] cs1 IH]; [done| |].
  - rewrite <- app_comm_cons, !concatFragments_cons_Some, IH.
    by rewrite string_app_assoc.
  - by rewrite <- app_comm_cons, !concatFragments_cons_None.
Qed.

(** ** Programs that keep a property of the state *)

Section Keeps.
Context (P : World → Prop).

Lemma extends_refl r : P (world r) → extends P r r.
Proof. intros H. exists []. by split_and!. Qed.

Lemma extends_trans r1 r2 r3 : extends P r1 r2 → extends P r2 r3 → extends P r1 r3.
Proof.
  intros (n1 & E1 & F1 & W1) (n2 & E2 & F2 & W2).
  exists (n2 ++ n1). split_and!; [|by apply Forall_app|done].
  by rewrite E2, E1, (assoc_L (++)).
Qed.

Lemma extends_world r r' : extends P r r' → P (world r').
Proof. by intros (? & ? & ? & ?). Qed.

Lemma keeps_ret {A} (a : A) : keeps P (mret a).
Proof. intros r H. by apply extends_refl. Qed.

Lemma keeps_throw {A} e : keeps P (@throw A e).
Proof. intros r H. by apply extends_refl. Qed.

Lemma keeps_get : keeps P get.
Proof. intros r H. by apply extends_refl. Qed.

Lemma keeps_step f : (∀ w, P w → P (f w)) → keeps P (step f).
Proof.
  intros Hf r H. exists [world r]. simpl. split_and!; [done| |by apply Hf].
  by apply Forall_singleton.
Qed.

Lemma keeps_stepPartial f :
  (∀ w w', P w → f w = Some w' → P w') → keeps P (stepPartial f).
Proof.
  intros Hf r H. unfold stepPartial.
  destruct (f (world r)) as [w'|] eqn:E; simpl.
  - exists [world r]. simpl. split_and!; [done| |by eapply Hf].
    by apply Forall_singleton.
  - by apply extends_refl.
Qed.

Lemma keeps_bind {A B} (m : Handler A) (k : A → Handler B) :
  keeps P m → (∀ a, keeps P (k a)) → keeps P (m ≫= k).
Proof.
  intros Hm Hk r H. specialize (Hm r H).
  unfold mbind, Handler_bind.
  destruct (m r) as [[a|e|] r'] eqn:E; simpl in *; [|done..].
  eapply extends_trans; [exact Hm|]. apply Hk. by eapply extends_world.
Qed.

Lemma keeps_tryCatch {A} (body : Handler A) handler :
  keeps P body → (∀ e, keeps P (handler e)) → keeps P (tryCatch body handler).
Proof.
  intros Hb Hh r H. specialize (Hb r H). unfold tryCatch.
  destruct (body r) as [[a|e|] r'] eqn:E; simpl in *; [done| |done].
  eapply extends_trans; [exact Hb|]. apply Hh. by eapply extends_world.
Qed.

Lemma keeps_tryFinally {A} (body : Handler A) cleanup :
  keeps P body → keeps P cleanup → keeps P (tryFinally body cleanup).
Proof.
  intros Hb Hc r H. specialize (Hb r H). unfold tryFinally.
  destruct (body r) as [[a|e|] r'] eqn:E; simpl in *; [| |done].
  - specialize (Hc r' (extends_world _ _ Hb)).
    destruct (cleanup r') as [[[]|e'|] r''] eqn:E'; simpl in *;
      by eapply extends_trans.
  - specialize (Hc r' (extends_world _ _ Hb)).
    destruct (cleanup r') as [[[]|e'|] r''] eqn:E'; simpl in *;
      by eapply extends_trans.
Qed.

Lemma keeps_forAwait {A} chunks failure (body : A → Chunk → Handler A) acc :
  (∀ a c, keeps P (body a c)) → keeps P (forAwait chunks failure body acc).
Proof.
  intros Hb. revert acc. induction chunks as [|c rest IH]; intros acc; simpl.
  - destruct failure; [apply keeps_throw|apply keeps_ret].
  - apply keeps_bind; [apply Hb|]. intros a. apply IH.
Qed.

Lemma keeps_awaitStream req reply :
  (∀ w, P w → P (with_request req w)) → keeps P (awaitStream req reply).
Proof.
  intros H. unfold awaitStream. apply keeps_bind; [by apply keeps_step|].
  intros _. destruct reply; [apply keeps_throw|apply keeps_ret].
Qed.
End Keeps.

(** ** The two accumulation loops *)

Lemma bind_run {A B} (m : Handler A) (k : A → Handler B) r :
  (m ≫= k) r = match m r with
               | (Returned a, r') => k a r'
               | (Threw e, r') => (Threw e, r')
               | (RenderError, r') => (RenderError, r')
               end.
Proof. done. Qed.

Lemma forAwait_cons {A} c rest failure (body : A → Chunk → Handler A) acc r :
  forAwait (c :: rest) failure body acc r =
  match body acc c r with
  | (Returned a, r') => forAwait rest failure body a r'
  | (Threw e, r') => (Threw e, r')
  | (RenderError, r') => (RenderError, r')
  end.
Proof. done. Qed.

Lemma generateChunk_falsy acc c r :
  truthy (text c) = false → generateChunk acc c r = (Returned acc, r).
Proof. by destruct c as [[[|??]|]]. Qed.

Lemma generateChunk_truthy acc t r :
  truthy (Some t) = true →
  generateChunk acc {| text := Some t |} r =
  (Returned (acc +:+ t),
   {| world := with_generatedPrompt (generatedPrompt (world r) +:+ t) (world r);
      published := world r :: published r |}).
Proof. by destruct t. Qed.

Lemma refineChunk_falsy acc c r :
  truthy (text c) = false → refineChunk acc c r = (Returned acc, r).
Proof. by destruct c as [[[|??]|]]. Qed.

Lemma refineChunk_truthy acc t r h :
  truthy (Some t) = true →
  setLastContent (acc +:+ t) (chatHistory (world r)) = Some h →
  refineChunk acc {| text := Some t |} r =
  (Returned (acc +:+ t),
   {| world := with_chatHistory h (world r);
      published := world r :: published r |}).
Proof.
  intros Ht Hh. destruct t; [done|].
  unfold refineChunk. simpl. rewrite bind_run. unfold stepPartial.
  simpl. by rewrite Hh.
Qed.

Lemma concatFragments_cons_falsy c rest :
  truthy (text c) = false → concatFragments (c :: rest) = concatFragments rest.
Proof. by destruct c as [[[|??]|]]. Qed.

(** The generation loop hands back the accumulator followed by every
    fragment, and the prompt it publishes grows by the same fragments. *)
Lemma forAwait_generateChunk chunks failure acc r :
  ∃ r', forAwait chunks failure generateChunk acc r =
          (match failure with
           | None => Returned (acc +:+ concatFragments chunks)
           | Some e => Threw e
           end, r')
        ∧ world r' = with_generatedPrompt
                       (generatedPrompt (world r) +:+ concatFragments chunks) (world r).
Proof.
  revert acc r. induction chunks as [|c rest IH]; intros acc r.
  - exists r. rewrite concatFragments_nil, !string_app_nil_r. split.
    + simpl. by destruct failure.
    + by destruct r as [[] ?].
  - rewrite forAwait_cons. destruct (truthy (text c)) eqn:Ht.
    + destruct c as [[t|]]; [|done]. simpl in Ht.
      rewrite generateChunk_truthy by done.
      edestruct IH as (r' & E & W). exists r'. split.
      * rewrite E, concatFragments_cons_Some.
        destruct failure; [done|]. by rewrite string_app_assoc.
      * rewrite W, concatFragments_cons_Some. simpl.
        by rewrite string_app_assoc.
    + rewrite generateChunk_falsy, concatFragments_cons_falsy by done.
      apply IH.
Qed.

Lemma setLastContent_snoc c pre m :
  setLastContent c (pre ++ [m]) = Some (pre ++ [{| role := role m; content := c |}]).
Proof.
  unfold setLastContent. destruct (pre ++ [m]) eqn:E.
  - by destruct pre.
  - rewrite <- E. f_equal. rewrite length_app. simpl.
    replace (length pre + 1 - 1)%nat with (length pre + 0)%nat by lia.
    by rewrite alter_app_r.
Qed.

(** The refine loop, started on a thread that ends with the placeholder
    holding the accumulator: it hands back the accumulator followed by
    every fragment and leaves exactly that in the placeholder. *)
Lemma forAwait_refineChunk chunks failure acc r pre ro :
  chatHistory (world r) = pre ++ [{| role := ro; content := acc |}] →
  ∃ r', forAwait chunks failure refineChunk acc r =
          (match failure with
           | None => Returned (acc +:+ concatFragments chunks)
           | Some e => Threw e
           end, r')
        ∧ world r' = with_chatHistory
                       (pre ++ [{| role := ro; content := acc +:+ concatFragments chunks |}])
                       (world r).
Proof.
  revert acc r. induction chunks as [|c rest IH]; intros acc r Hc.
  - exists r. rewrite concatFragments_nil, !string_app_nil_r. split.
    + simpl. by destruct failure.
    + rewrite <- Hc. by destruct r as [[] ?].
  - rewrite forAwait_cons. destruct (truthy (text c)) eqn:Ht.
    + destruct c as [[t|]]; [|done]. simpl in Ht.
      erewrite refineChunk_truthy; [|done|by rewrite Hc, setLastContent_snoc].
      destruct (IH (acc +:+ t)
                   {| world := with_chatHistory
                                 (pre ++ [{| role := ro; content := acc +:+ t |}]) (world r);
                      published := world r :: published r |} eq_refl)
        as (r' & E & W).
      exists r'. simpl. split.
      * rewrite E, concatFragments_cons_Some.
        destruct failure; [done|]. by rewrite string_app_assoc.
      * rewrite W, concatFragments_cons_Some. simpl.
        by rewrite string_app_assoc.
    + rewrite refineChunk_falsy, concatFragments_cons_falsy by done.
      by apply IH.
Qed.

(** ** Running a handler, one construct at a time *)

Lemma ret_run {A} (a : A) r : (mret a : Handler A) r = (Returned a, r).
Proof. done. Qed.

Lemma throw_run {A} e r : @throw A e r = (Threw e, r).
Proof. done. Qed.

Lemma get_run r : get r = (Returned (world r), r).
Proof. done. Qed.

Lemma step_run f r :
  step f r = (Returned (), {| world := f (world r); published := world r :: published r |}).
Proof. done. Qed.

Lemma tryCatch_run {A} (body : Handler A) handler r :
  tryCatch body handler r =
  match body r with
  | (Threw e, r') => handler e r'
  | other => other
  end.
Proof. done. Qed.

Lemma tryFinally_run {A} (body : Handler A) cleanup r :
  tryFinally body cleanup r =
  match body r with
  | (RenderError, r') => (RenderError, r')
  | (c, r') =>
      match cleanup r' with
      | (Returned _, r'') => (c, r'')
      | (Threw e, r'') => (Threw e, r'')
      | (RenderError, r'') => (RenderError, r'')
      end
  end.
Proof. done. Qed.

Lemma awaitStream_rejected req e r :
  awaitStream req (Rejected e) r =
  (Threw e, {| world := with_request req (world r); published := world r :: published r |}).
Proof. done. Qed.

Lemma awaitStream_streaming req cs f r :
  awaitStream req (Streaming cs f) r =
  (Returned (cs, f),
   {| world := with_request req (world r); published := world r :: published r |}).
Proof. done. Qed.

Lemma bind_assoc_run {A B C} (m : Handler A) (k1 : A → Handler B)
    (k2 : B → Handler C) r :
  ((m ≫= k1) ≫= k2) r = (m ≫= (λ a, k1 a ≫= k2)) r.
Proof. rewrite !bind_run. by destruct (m r) as [[?|?|] ?]. Qed.

Lemma bind_step {B} f (k : () → Handler B) r :
  (step f ≫= k) r =
  k () {| world := f (world r); published := world r :: published r |}.
Proof. done. Qed.

Lemma bind_ret {A B} (a : A) (k : A → Handler B) r : (mret a ≫= k) r = k a r.
Proof. done. Qed.

Lemma bind_throw {A B} e (k : A → Handler B) r : (throw e ≫= k) r = (Threw e, r).
Proof. done. Qed.

Lemma bind_get {B} (k : World → Handler B) r : (get ≫= k) r = k (world r) r.
Proof. done. Qed.

Lemma bind_awaitStream_rejected {B} req e
    (k : list Chunk * option Thrown → Handler B) r :
  (awaitStream req (Rejected e) ≫= k) r =
  (Threw e, {| world := with_request req (world r); published := world r :: published r |}).
Proof. done. Qed.

Lemma bind_awaitStream_streaming {B} req cs f
    (k : list Chunk * option Thrown → Handler B) r :
  (awaitStream req (Streaming cs f) ≫= k) r =
  k (cs, f) {| world := with_request req (world r); published := world r :: published r |}.
Proof. done. Qed.

Ltac run1 :=
  first [ progress cbn [fst snd world published]
        | rewrite bind_assoc_run | rewrite bind_step | rewrite bind_ret
        | rewrite bind_throw | rewrite bind_get
        | rewrite bind_awaitStream_rejected
        | rewrite bind_awaitStream_streaming
        | rewrite step_run | rewrite ret_run | rewrite throw_run
        | rewrite tryCatch_run | rewrite tryFinally_run ].
Ltac run := repeat run1.

(** ** What the handlers leave behind *)

(** A generation with a configured client always returns, and leaves a
    state that depends on the reply only through its fragments and on
    whether it failed. *)
Lemma handleGeneratePrompt_final c input genTone genAudience reply uuid now w :
  let res := generation (Some c) input genTone genAudience reply uuid now w in
  res.1 = Returned () ∧
  final res =
    {| adminSettings := adminSettings w; accessLevel := accessLevel w;
       formUserInput := formUserInput w; formTone := formTone w;
       formTargetAudience := formTargetAudience w;
       generatedPrompt := concatFragments (chunksOf reply);
       isLoading := false;
       error := errorMessage <$> failureOf reply;
       history :=
         match failureOf reply with
         | None => {| id := uuid; prompt := concatFragments (chunksOf reply);
                      timestamp := now; userInput := input; tone := genTone;
                      targetAudience := genAudience |} :: take 49 (history w)
         | Some _ => history w
         end;
       activeTab := refine;
       chatHistory := [];
       isChatLoading := isChatLoading w;
       originalPromptForChat :=
         match failureOf reply with
         | None => concatFragments (chunksOf reply)
         | Some _ => originalPromptForChat w
         end;
       testChatHistory := [];
       isTestChatLoading := isTestChatLoading w;
       testChatRef := None;
       requests := requests w ++
         [GenerateContentStream "gemini-2.5-flash"
            (fullPrompt input genTone genAudience) GENERATE_SYSTEM_INSTRUCTION] |}.
Proof.
  unfold generation, invoke, final, handleGeneratePrompt, generateTry,
    resetChatStates, setHistory.
  destruct reply as [e|cs f]; run; [split; reflexivity|].
  rewrite bind_run.
  match goal with
  | |- context [forAwait cs f generateChunk "" ?R] =>
      destruct (forAwait_generateChunk cs f "" R) as (r' & E & W); rewrite E
  end.
  cbn [world generatedPrompt with_request with_error with_activeTab
       with_testChatRef with_testChatHistory with_chatHistory
       with_generatedPrompt] in W.
  rewrite string_app_nil_l in W.
  destruct f as [e|]; run; (split; [reflexivity|]); rewrite W; reflexivity.
Qed.

Lemma stepPartial_last_run c r pre m :
  chatHistory (world r) = pre ++ [m] →
  stepPartial (fun w =>
      newHistory ← setLastContent c (chatHistory w);
      Some (with_chatHistory newHistory w)) r =
  (Returned (),
   {| world := with_chatHistory (pre ++ [{| role := role m; content := c |}]) (world r);
      published := world r :: published r |}).
Proof.
  intros H. unfold stepPartial. by rewrite H, setLastContent_snoc.
Qed.

(** A refine turn with a configured client always returns; the thread
    gains the user message and one model message, which holds the whole
    answer or the error marker. *)
Lemma handleSendMessage_final c message reply w :
  let res := refineTurn (Some c) message reply w in
  res.1 = Returned () ∧
  final res =
    {| adminSettings := adminSettings w; accessLevel := accessLevel w;
       formUserInput := formUserInput w; formTone := formTone w;
       formTargetAudience := formTargetAudience w;
       generatedPrompt :=
         match failureOf reply with
         | None => concatFragments (chunksOf reply)
         | Some _ => generatedPrompt w
         end;
       isLoading := isLoading w;
       error := error w;
       history := history w;
       activeTab := activeTab w;
       chatHistory :=
         (chatHistory w ++ [{| role := user; content := message |}]) ++
         [{| role := model;
             content :=
               match failureOf reply with
               | None => concatFragments (chunksOf reply)
               | Some e => "Error: " +:+ errorMessage e
               end |}];
       isChatLoading := false;
       originalPromptForChat :=
         match failureOf reply with
         | None => concatFragments (chunksOf reply)
         | Some _ => originalPromptForChat w
         end;
       testChatHistory := testChatHistory w;
       isTestChatLoading := isTestChatLoading w;
       testChatRef := testChatRef w;
       requests := requests w ++
         [SendMessageStream
            {| chat_systemInstruction := REFINE_SYSTEM_INSTRUCTION;
               chat_history := [{| role := model;
                                   content := originalPromptForChat w |}] |}
            message] |}.
Proof.
  unfold refineTurn, invoke, final, handleSendMessage.
  assert (∀ l : list ChatMessage,
            l ++ [{| role := user; content := message |};
                  {| role := model; content := "" |}] =
            (l ++ [{| role := user; content := message |}]) ++
            [{| role := model; content := "" |}]) as Hsnoc
    by (intros l; by rewrite <- (assoc_L (++))).
  rewrite Hsnoc.
  destruct reply as [e|cs f]; run.
  - erewrite stepPartial_last_run by reflexivity. run.
    split; reflexivity.
  - rewrite bind_run.
    match goal with
    | |- context [forAwait cs f refineChunk "" ?R] =>
        destruct (forAwait_refineChunk cs f "" R
                    (chatHistory w ++ [{| role := user; content := message |}])
                    model eq_refl) as (r' & E & W); rewrite E
    end.
    rewrite string_app_nil_l in W.
    destruct f as [e|]; run.
    + erewrite stepPartial_last_run by (rewrite W; reflexivity). run.
      split; [reflexivity|]. rewrite W. reflexivity.
    + split; [reflexivity|]. rewrite W. reflexivity.
Qed.

(** ** The properties of the session state machine *)

(** C1. Whatever fragments a stream delivers before it ends, the string
    the accumulation loop hands back is their concatenation in order,
    and the value last published is that string: after a generation the
    displayed prompt, the refine anchor and the prompt of the new history
    item; after a refine turn the placeholder message, the prompt and
    the anchor. A stream without fragments gives the empty string. *)
Theorem accumulated_text_is_concatenation (c : Client) :
  (∀ chunks r,
     (forAwait chunks None generateChunk "" r).1 = Returned (concatFragments chunks))
  ∧ (∀ chunks input genTone genAudience uuid now w,
       let res := generation (Some c) input genTone genAudience
                    (Streaming chunks None) uuid now w in
       res.1 = Returned ()
       ∧ generatedPrompt (final res) = concatFragments chunks
       ∧ originalPromptForChat (final res) = concatFragments chunks
       ∧ prompt <$> head (history (final res)) = Some (concatFragments chunks))
  ∧ (∀ chunks message w,
       let res := refineTurn (Some c) message (Streaming chunks None) w in
       res.1 = Returned ()
       ∧ last (chatHistory (final res))
         = Some {| role := model; content := concatFragments chunks |}
       ∧ generatedPrompt (final res) = concatFragments chunks
       ∧ originalPromptForChat (final res) = concatFragments chunks)
  ∧ (∀ input genTone genAudience uuid now w,
       generatedPrompt (final (generation (Some c) input genTone genAudience
                                 (Streaming [] None) uuid now w)) = "")
  ∧ (∀ message w,
       last (chatHistory (final (refineTurn (Some c) message (Streaming [] None) w)))
       = Some {| role := model; content := "" |}).
Proof.
  split_and!.
  - intros chunks r.
    destruct (forAwait_generateChunk chunks None "" r) as (r' & E & _).
    by rewrite E.
  - intros chunks input genTone genAudience uuid now w res.
    destruct (handleGeneratePrompt_final c input genTone genAudience
                (Streaming chunks None) uuid now w) as [R F].
    subst res. rewrite F. by split_and!.
  - intros chunks message w res.
    destruct (handleSendMessage_final c message (Streaming chunks None) w) as [R F].
    subst res. rewrite F. split_and!; [done| |done..].
    cbn [chatHistory failureOf chunksOf]. apply last_snoc.
  - intros input genTone genAudience uuid now w.
    destruct (handleGeneratePrompt_final c input genTone genAudience
                (Streaming [] None) uuid now w) as [_ F].
    by rewrite F.
  - intros message w.
    destruct (handleSendMessage_final c message (Streaming [] None) w) as [_ F].
    rewrite F. cbn [chatHistory failureOf chunksOf]. apply last_snoc.
Qed.

Example accumulated_text_sample :
  generatedPrompt
    (final (generation (Some sampleClient) "A vacation planner" "Friendly" "Busy parents"
              (Streaming [ {| text := Some "You " |}; {| text := Some "" |};
                           {| text := None |}; {| text := Some "plan." |} ] None)
              "id-1" 1700000000000 sampleWorld))
  = "You plan.".
Proof. reflexivity. Qed.

(** *** The history *)

Lemma generate_history c g w :
  history (generate (Some c) g w) = newItem g :: take 49 (history w).
Proof.
  unfold generate.
  destruct (handleGeneratePrompt_final c (c_input g) (c_tone g) (c_audience g)
              (Streaming (c_chunks g) None) (c_uuid g) (c_now g) w) as [_ F].
  by rewrite F.
Qed.

Lemma generations_snoc ai gs g w :
  generations ai (gs ++ [g]) w = generate ai g (generations ai gs w).
Proof. unfold generations. by rewrite foldl_app. Qed.

(** After any number of generations the history is the items created,
    newest first, followed by what was there, cut at 50: nothing is cut
    while no generation has happened. *)
Lemma generations_history c gs w :
  gs ≠ [] →
  history (generations (Some c) gs w)
  = take 50 (reverse (newItem <$> gs) ++ history w).
Proof.
  induction gs as [|g gs IH] using rev_ind; [done|]. intros _.
  rewrite generations_snoc, generate_history, fmap_app, reverse_app.
  simpl. f_equal. destruct (decide (gs = [])) as [->|Hne]; [done|].
  rewrite IH by done. rewrite take_take. by replace (49 `min` 50)%nat with 49%nat by lia.
Qed.

(** C2. A completed generation puts its item at the front of the
    history and keeps at most 50 entries; after more than 50 generations
    the history is exactly the 50 items created last, newest first. *)
Theorem history_newest_first_capped (c : Client) (gs : list Completed) (w : World) :
  (∀ g w0, history (generate (Some c) g w0) = newItem g :: take 49 (history w0)
           ∧ head (history (generate (Some c) g w0)) = Some (newItem g)
           ∧ (length (history (generate (Some c) g w0)) ≤ 50)%nat)
  ∧ ((50 < length gs)%nat →
     history (generations (Some c) gs w) = take 50 (reverse (newItem <$> gs))
     ∧ history (generations (Some c) gs w)
       = reverse (drop (length gs - 50) (newItem <$> gs))
     ∧ length (history (generations (Some c) gs w)) = 50%nat).
Proof.
  split.
  - intros g w0. rewrite generate_history. split_and!; [done..|].
    simpl. rewrite length_take. lia.
  - intros Hlen.
    assert (gs ≠ []) as Hne by (intros ->; simpl in Hlen; lia).
    assert (history (generations (Some c) gs w) = take 50 (reverse (newItem <$> gs)))
      as Hh.
    { rewrite generations_history by done.
      apply take_app_le. rewrite length_reverse, length_fmap. lia. }
    split_and!; [done| |].
    + rewrite Hh, take_reverse. by rewrite length_fmap.
    + rewrite Hh, length_take, length_reverse, length_fmap. lia.
Qed.

Lemma history_newest_first_capped_witness :
  history (generations (Some sampleClient) (sampleGeneration <$> seq 0 51) sampleWorld)
  = take 50 (reverse (newItem <$> (sampleGeneration <$> seq 0 51)))
  ∧ history (generations (Some sampleClient) (sampleGeneration <$> seq 0 51) sampleWorld)
    = reverse (drop (length (sampleGeneration <$> seq 0 51) - 50)
                 (newItem <$> (sampleGeneration <$> seq 0 51)))
  ∧ length (history (generations (Some sampleClient) (sampleGeneration <$> seq 0 51)
                       sampleWorld)) = 50%nat.
Proof.
  apply (history_newest_first_capped sampleClient (sampleGeneration <$> seq 0 51)
           sampleWorld).
  vm_compute. lia.
Defined.

(** *** Resetting the chat threads *)

Lemma keeps_generateChunk P acc chunk :
  (∀ v w, P w → P (with_generatedPrompt v w)) → keeps P (generateChunk acc chunk).
Proof.
  intros H. unfold generateChunk. destruct (text chunk) as [t|]; [|apply keeps_ret].
  destruct (truthy (Some t)); [|apply keeps_ret].
  apply keeps_bind; [|intros; apply keeps_ret].
  apply keeps_step. intros w' Hw'. by apply H.
Qed.

Lemma keeps_generateTry P input genTone genAudience reply uuid now render :
  (∀ r w, P w → P (with_request r w)) →
  (∀ v w, P w → P (with_generatedPrompt v w)) →
  (∀ v w, P w → P (with_originalPromptForChat v w)) →
  (∀ v w, P w → P (with_history v w)) →
  (∀ v w, P w → P (with_error v w)) →
  (∀ v w, P w → P (with_isLoading v w)) →
  keeps P (generateTry input genTone genAudience reply uuid now render).
Proof.
  intros Hr Hg Ho Hh He Hl. unfold generateTry, setHistory.
  apply keeps_tryFinally; [|apply keeps_step; intros; by apply Hl].
  apply keeps_tryCatch; [|intros e; apply keeps_step; intros; by apply He].
  apply keeps_bind; [apply keeps_awaitStream; intros; by apply Hr|].
  intros stream. apply keeps_bind.
  { apply keeps_forAwait. intros a ch. by apply keeps_generateChunk. }
  intros finalPrompt. apply keeps_bind; [apply keeps_step; intros; by apply Ho|].
  intros _. apply keeps_step. intros. by apply Hh.
Qed.

(** The run of a generation: the six states up to the reset of the test
    handle, then states in which both threads stay empty. *)
Lemma generation_trace c input genTone genAudience reply uuid now w :
  ∃ after,
    trace (generation (Some c) input genTone genAudience reply uuid now w)
    = [ w;
        with_isLoading true w;
        with_error None (with_isLoading true w);
        with_generatedPrompt "" (with_error None (with_isLoading true w));
        with_chatHistory []
          (with_generatedPrompt "" (with_error None (with_isLoading true w)));
        with_testChatHistory []
          (with_chatHistory []
             (with_generatedPrompt "" (with_error None (with_isLoading true w)))) ]
      ++ with_testChatRef None
           (with_testChatHistory []
              (with_chatHistory []
                 (with_generatedPrompt "" (with_error None (with_isLoading true w)))))
         :: after
    ∧ Forall chatsReset after.
Proof.
  unfold generation, invoke, trace, handleGeneratePrompt, resetChatStates.
  repeat (first [rewrite bind_assoc_run | rewrite bind_step];
          cbn [world published]).
  match goal with
  | |- context [generateTry input genTone genAudience reply uuid now w ?R] =>
      destruct (keeps_generateTry chatsReset input genTone genAudience reply
                  uuid now w
                  ltac:(by intros) ltac:(by intros) ltac:(by intros)
                  ltac:(by intros) ltac:(by intros) ltac:(by intros) R)
        as (new & E & F & W); [by split_and!|];
      destruct (generateTry input genTone genAudience reply uuid now w R)
        as [out rf]
  end.
  cbn [snd world published] in *. rewrite E.
  eexists. split.
  - rewrite reverse_cons, reverse_app. cbn [reverse rev_append].
    rewrite <- (assoc_L (++)). cbn [app]. reflexivity.
  - apply Forall_cons. split; [by split_and!|].
    apply Forall_app. split; [by apply Forall_reverse|].
    by apply Forall_singleton.
Qed.

(** C3. Whatever the two chat threads and the test conversation handle
    were, a generation that enters the generating state empties both
    threads and drops the handle while nothing has been requested from
    the backend yet, so before any fragment arrives; they stay so in
    every later state of the run and at its end. *)
Theorem generation_resets_chats c input genTone genAudience reply uuid now w :
  let res := generation (Some c) input genTone genAudience reply uuid now w in
  chatsReset (final res)
  ∧ requests (final res)
    = requests w ++ [GenerateContentStream "gemini-2.5-flash"
                       (fullPrompt input genTone genAudience)
                       GENERATE_SYSTEM_INSTRUCTION]
  ∧ ∃ before reset after,
      trace res = before ++ reset :: after
      ∧ Forall (λ s, requests s = requests w) before
      ∧ (requests reset = requests w ∧ isLoading reset = true ∧ chatsReset reset)
      ∧ Forall chatsReset after.
Proof.
  intros res.
  destruct (handleGeneratePrompt_final c input genTone genAudience reply uuid now w)
    as [_ F].
  destruct (generation_trace c input genTone genAudience reply uuid now w)
    as (after & T & Fa).
  subst res. split_and!.
  - rewrite F. by split_and!.
  - by rewrite F.
  - eexists _, _, after. split_and!; [exact T| |done..].
    repeat (apply Forall_cons; split; [done|]). apply Forall_nil_2.
Qed.

(** *** Failures *)

(** C5, as stated, fails: a generation whose stream breaks after two
    fragments leaves those fragments as the generated prompt, not the
    prompt that was there before the call. *)
Lemma generation_failure_keeps_partial_output :
  failureOf brokenStream = Some (ErrorObject "network down")
  ∧ generatedPrompt sampleWorld = "old prompt"
  ∧ generatedPrompt
      (final (generation (Some sampleClient) "A vacation planner" "Friendly"
                "Busy parents" brokenStream "id-1" 1700000000000 sampleWorld))
    = "partial"
  ∧ generatedPrompt
      (final (generation (Some sampleClient) "A vacation planner" "Friendly"
                "Busy parents" brokenStream "id-1" 1700000000000 sampleWorld))
    ≠ generatedPrompt sampleWorld.
Proof. split_and!; [reflexivity..|]. vm_compute. discriminate. Qed.

(** C5, amended. A generation whose request is rejected or whose stream
    breaks returns with the loading flag down and the error message set,
    adds nothing to the history and leaves the refine anchor as it was;
    the generated prompt, emptied on entry, holds the fragments received
    before the failure. *)
Theorem generation_failure c input genTone genAudience reply uuid now w e :
  failureOf reply = Some e →
  let res := generation (Some c) input genTone genAudience reply uuid now w in
  res.1 = Returned ()
  ∧ isLoading (final res) = false
  ∧ error (final res) = Some (errorMessage e)
  ∧ history (final res) = history w
  ∧ originalPromptForChat (final res) = originalPromptForChat w
  ∧ generatedPrompt (final res) = concatFragments (chunksOf reply).
Proof.
  intros Hf res.
  destruct (handleGeneratePrompt_final c input genTone genAudience reply uuid now w)
    as [R F].
  subst res. rewrite F. cbn [isLoading error history originalPromptForChat generatedPrompt].
  rewrite Hf. by split_and!.
Qed.

Lemma generation_failure_witness :
  let res := generation (Some sampleClient) "A vacation planner" "Friendly"
               "Busy parents" brokenStream "id-1" 1700000000000 sampleWorld in
  res.1 = Returned ()
  ∧ isLoading (final res) = false
  ∧ error (final res) = Some (errorMessage (ErrorObject "network down"))
  ∧ history (final res) = history sampleWorld
  ∧ originalPromptForChat (final res) = originalPromptForChat sampleWorld
  ∧ generatedPrompt (final res) = concatFragments (chunksOf brokenStream).
Proof.
  apply (generation_failure sampleClient "A vacation planner" "Friendly"
           "Busy parents" brokenStream "id-1" 1700000000000 sampleWorld
           (ErrorObject "network down")).
  reflexivity.
Defined.



Example refine_failure_sample :
  last (chatHistory (final (refineTurn (Some sampleClient) "Make it formal."
                              (Rejected OtherValue) sampleWorld)))
  = Some {| role := model; content := "Error: An unknown error occurred." |}.
Proof. reflexivity. Qed.

(** C7. Without a backend client a generation only sets the error
    message and returns: the run has the starting state and one more,
    no state of it has the loading flag, the requests, the history, the
    generated prompt or the chat threads changed. *)
Theorem generation_without_client input genTone genAudience reply uuid now w :
  let res := generation None input genTone genAudience reply uuid now w in
  res.1 = Returned ()
  ∧ error (final res)
    = Some "AI client not initialized. Please configure your API key."
  ∧ trace res
    = [w; with_error (Some "AI client not initialized. Please configure your API key.") w]
  ∧ Forall (λ s, isLoading s = isLoading w
                 ∧ requests s = requests w
                 ∧ history s = history w
                 ∧ generatedPrompt s = generatedPrompt w
                 ∧ originalPromptForChat s = originalPromptForChat w
                 ∧ chatHistory s = chatHistory w
                 ∧ testChatHistory s = testChatHistory w
                 ∧ testChatRef s = testChatRef w
                 ∧ activeTab s = activeTab w) (trace res).
Proof.
  intros res. subst res. split_and!; [done..|].
  repeat (apply Forall_cons; split; [by split_and!|]). apply Forall_nil_2.
Qed.

(** *** Deleting and clearing *)

Lemma handleClearHistoryItem_final id0 w :
  final (invoke (handleClearHistoryItem id0) w)
  = with_history (filter (λ item, id item ≠ id0) (history w)) w.
Proof. done. Qed.


(** Identifiers stay pairwise distinct: a generation whose identifier is
    new keeps them so, and so does a deletion. *)
Lemma generate_ids_distinct c g w :
  NoDup (id <$> history w) → c_uuid g ∉ (id <$> history w) →
  NoDup (id <$> history (generate (Some c) g w)).
Proof.
  intros Hnd Hfresh. rewrite generate_history. simpl. apply NoDup_cons. split.
  - intros Hin. apply Hfresh.
    apply list_elem_of_fmap in Hin as (x & -> & Hx).
    apply list_elem_of_fmap. exists x. split; [done|].
    by apply (subseteq_take 49).
  - rewrite <- (take_drop 49 (history w)), fmap_app in Hnd.
    by apply NoDup_app in Hnd as (? & _ & _).
Qed.

Lemma delete_ids_distinct id0 w :
  NoDup (id <$> history w) →
  NoDup (id <$> history (final (invoke (handleClearHistoryItem id0) w))).
Proof.
  rewrite handleClearHistoryItem_final. simpl.
  induction (history w) as [|x h IH]; [done|]. simpl.
  intros [Hx Hh]%NoDup_cons. rewrite filter_cons. case_decide; [|by apply IH].
  simpl. apply NoDup_cons. split; [|by apply IH].
  intros Hin. apply Hx.
  apply list_elem_of_fmap in Hin as (y & -> & Hy).
  apply list_elem_of_fmap. exists y. split; [done|].
  by apply list_elem_of_filter in Hy as [_ ?].
Qed.



(** C9. Clearing the test thread empties it and drops the test
    conversation handle; the refine thread, the generated prompt, the
    refine anchor, the history and every other field stay as they were,
    in both states the handler publishes. *)
Theorem clear_test_thread w :
  let res := invoke handleClearTestChat w in
  res.1 = Returned ()
  ∧ final res = with_testChatRef None (with_testChatHistory [] w)
  ∧ testChatHistory (final res) = []
  ∧ testChatRef (final res) = None
  ∧ trace res = [w; with_testChatHistory [] w;
                 with_testChatRef None (with_testChatHistory [] w)]
  ∧ Forall (λ s, chatHistory s = chatHistory w
                 ∧ generatedPrompt s = generatedPrompt w
                 ∧ originalPromptForChat s = originalPromptForChat w
                 ∧ history s = history w
                 ∧ requests s = requests w) (trace res).
Proof.
  intros res. subst res. split_and!; [done..|].
  repeat (apply Forall_cons; split; [by split_and!|]). apply Forall_nil_2.
Qed.

(** *** The test conversation handle *)

Lemma keeps_testChunk P acc chunk :
  (∀ v w, P w → P (with_testChatHistory v w)) → keeps P (testChunk acc chunk).
Proof.
  intros H. unfold testChunk. destruct (text chunk) as [t|]; [|apply keeps_ret].
  destruct (truthy (Some t)); [|apply keeps_ret].
  apply keeps_bind; [|intros; apply keeps_ret].
  apply keeps_stepPartial. intros w0 w' Hw0 Hs.
  destruct (setLastContent _ _) as [h|]; simplify_eq/=. by apply H.
Qed.

Lemma keeps_testTry P chat message reply :
  (∀ r w, P w → P (with_request r w)) →
  (∀ v w, P w → P (with_testChatHistory v w)) →
  (∀ v w, P w → P (with_isTestChatLoading v w)) →
  keeps P
    (tryFinally
       (tryCatch (testStream chat message reply)
          (fun err =>
             stepPartial (fun w =>
               newHistory ← setLastContent ("Error: " +:+ errorMessage err)
                                           (testChatHistory w);
               Some (with_testChatHistory newHistory w))))
       (step (with_isTestChatLoading false))).
Proof.
  intros Hr Ht Hl.
  apply keeps_tryFinally; [|apply keeps_step; intros; by apply Hl].
  apply keeps_tryCatch.
  - unfold testStream. apply keeps_bind; [apply keeps_awaitStream; intros; by apply Hr|].
    intros stream. apply keeps_bind; [|intros; apply keeps_ret].
    apply keeps_forAwait. intros. by apply keeps_testChunk.
  - intros e. apply keeps_stepPartial. intros w0 w' Hw0 Hs.
    destruct (setLastContent _ _) as [h|]; simplify_eq/=. by apply Ht.
Qed.

(** The first test message of a thread creates the handle from the
    prompt current at that moment; a later message finds the handle and
    leaves it alone, whatever the prompt has become. *)
Lemma test_message_handle c message reply w :
  generatedPrompt w ≠ "" →
  testChatRef (final (invoke (handleSendTestMessage (Some c) message reply) w))
  = Some (default {| chat_systemInstruction := PromptText (generatedPrompt w);
                     chat_history := [] |} (testChatRef w)).
Proof.
  intros Hp. unfold invoke, final, handleSendTestMessage.
  destruct (generatedPrompt w) as [|a p] eqn:Eg; [done|]. cbn [truthy].
  rewrite !bind_step. cbn [world published].
  rewrite tryFinally_run, tryCatch_run, bind_get.
  cbn [world testChatRef with_testChatHistory with_isTestChatLoading].
  destruct (testChatRef w) as [ch|] eqn:Eref; cbn [default].
  - rewrite bind_ret, <- tryCatch_run, <- tryFinally_run.
    eapply (extends_world (λ s, testChatRef s = Some ch)).
    by apply keeps_testTry.
  - rewrite bind_assoc_run, bind_step, bind_ret. cbn [world published].
    rewrite <- tryCatch_run, <- tryFinally_run.
    eapply (extends_world (λ s, testChatRef s = Some _)).
    by apply keeps_testTry.
Qed.

(** After the test thread is cleared, the next test message binds a new
    handle to the prompt current at that moment, whatever handle there
    was before. *)
Lemma clear_then_test_message c message reply w :
  generatedPrompt w ≠ "" →
  testChatRef
    (final (invoke (handleSendTestMessage (Some c) message reply)
              (final (invoke handleClearTestChat w))))
  = Some {| chat_systemInstruction := PromptText (generatedPrompt w);
            chat_history := [] |}.
Proof. intros Hp. by rewrite test_message_handle. Qed.

(** ** The access gate *)

Module AccessGateFacts.
Import AccessGate.

Lemma lastChar_cons a s :
  lastChar (String a s) = match s with "" => Some a | _ => lastChar s end.
Proof. by destruct s. Qed.

Lemma endsWithDigit_nonempty s : endsWithDigit s → s ≠ "".
Proof. by intros (c & H & _) ->. Qed.

Lemma endsWithDigit_cons a s : endsWithDigit s → endsWithDigit (String a s).
Proof.
  intros H. pose proof (endsWithDigit_nonempty s H) as Hne.
  destruct H as (c & Hc & Hd). exists c. split; [|done].
  rewrite lastChar_cons. by destruct s.
Qed.

Lemma endsWithDigit_digit a s :
  isDigit a = true → s = "" ∨ endsWithDigit s → endsWithDigit (String a s).
Proof.
  intros Ha [->|H]; [exists a; by split|]. by apply endsWithDigit_cons.
Qed.

Lemma endsWithDigit_app s t : endsWithDigit t → endsWithDigit (s +:+ t).
Proof.
  intros H. induction s as [|a s IH]; [done|].
  rewrite string_app_cons. by apply endsWithDigit_cons.
Qed.

Lemma string_of_uint_digits d :
  NilEmpty.string_of_uint d = "" ∨ endsWithDigit (NilEmpty.string_of_uint d).
Proof.
  induction d as [|d IH|d IH|d IH|d IH|d IH|d IH|d IH|d IH|d IH|d IH];
    [by left|right; simpl; by apply endsWithDigit_digit..].
Qed.

Lemma String_of_endsWithDigit n : endsWithDigit (String_of n).
Proof.
  assert (∀ d, endsWithDigit (NilZero.string_of_uint d)) as Hu.
  { intros d. destruct (string_of_uint_digits d) as [E|H].
    - destruct d; [|discriminate E..]. exists "0"%char. by split.
    - destruct d; [|exact H..]. exists "0"%char. by split. }
  unfold String_of. destruct (Z.to_int n) as [d|d]; simpl; [apply Hu|].
  apply endsWithDigit_cons, Hu.
Qed.

(** The client code of the day ends with the last digit of the year. *)
Lemma getClientCode_endsWithDigit settings date :
  endsWithDigit (getClientCode settings date).
Proof.
  unfold getClientCode. cbv zeta.
  repeat apply endsWithDigit_app. apply String_of_endsWithDigit.
Qed.


Lemma getClientCode_nonempty settings date : getClientCode settings date ≠ "".
Proof. apply endsWithDigit_nonempty, getClientCode_endsWithDigit. Qed.

Example getClientCode_sample :
  getClientCode {| accessSecret := "CLIENT"; isGateEnabled := true |}
                {| getDate := 2; getMonth := 10; getFullYear := 2026 |}
  = "CLIENT-02-11-2026"
  ∧ getClientCode {| accessSecret := "CLIENT"; isGateEnabled := true |}
                  {| getDate := 15; getMonth := 0; getFullYear := 2027 |}
    = "CLIENT-15-01-2027".
Proof. split; reflexivity. Qed.

(** Days and months always come out on two digits. *)
Example two_digit_days_and_months :
  Forall (λ d, String.length (padStart 2 "0" (String_of (Z.of_nat d))) = 2%nat)
         (seq 1 31).
Proof. apply (bool_decide_unpack _). vm_compute. exact I. Qed.



Lemma gateRun_without_code w g evs s' :
  accessLevel w = none →
  isGateEnabled (adminSettings w) = true →
  code g = "" →
  Forall (λ ev, entersCode ev = false) evs →
  gateRun evs (w, g) = Some s' →
  s'.1 = w ∧ code s'.2 = "".
Proof.
  intros Hnone Hen. revert g.
  induction evs as [|ev evs IH]; intros g Hc Hevs Hrun.
  - simpl in Hrun. simplify_eq. by split.
  - apply Forall_cons in Hevs as [Hev Hevs]. simpl in Hrun.
    unfold gateDispatch in Hrun. cbn [fst] in Hrun.
    rewrite decide_True in Hrun by done.
    destruct ev as [v| |date|]; [done| | |].
    + cbn [offered gateStep fst snd] in Hrun.
      rewrite decide_True in Hrun by done.
      refine (IH _ _ Hevs Hrun). exact Hc.
    + cbn [offered gateStep] in Hrun. unfold handleSubmit in Hrun.
      rewrite Hc in Hrun.
      rewrite (decide_False (P := "" = ADMIN_CODE)) in Hrun by done.
      rewrite (decide_False (P := "" = getClientCode (adminSettings w) date)) in Hrun
        by (intros E; symmetry in E; by apply getClientCode_nonempty in E).
      cbn [fst] in Hrun. rewrite decide_True in Hrun by done.
      refine (IH _ _ Hevs Hrun). reflexivity.
    + cbn [offered] in Hrun. by rewrite Hen in Hrun.
Qed.

(** C10. With the gate not enabled, the gate offers a guest button that
    gives the client level whatever is in the code field, so with no
    code entered. With the gate enabled, the only event at the gate that
    raises the level is a submit whose code is the admin code or the
    client code of the day, and no sequence of events that never enters
    a code raises it. *)
Theorem guest_path_only_when_gate_disabled w g :
  accessLevel w = none →
  (isGateEnabled (adminSettings w) = false →
     offered (adminSettings w) ContinueAsGuest = true
     ∧ ∃ s', gateDispatch ContinueAsGuest (w, g) = Some s'
             ∧ accessLevel s'.1 = client)
  ∧ (isGateEnabled (adminSettings w) = true →
     offered (adminSettings w) ContinueAsGuest = false
     ∧ (∀ ev s', gateDispatch ev (w, g) = Some s' → accessLevel s'.1 ≠ none →
          ∃ date, ev = Submit date
                  ∧ (code g = ADMIN_CODE
                     ∨ code g = getClientCode (adminSettings w) date))
     ∧ (code g = "" →
        ∀ evs s', Forall (λ ev, entersCode ev = false) evs →
                  gateRun evs (w, g) = Some s' → accessLevel s'.1 = none)).
Proof.
  intros Hnone. split.
  - intros Hoff. unfold gateDispatch. cbn [fst offered].
    rewrite decide_True by done. rewrite Hoff. split; [done|].
    by eexists.
  - intros Hen. split_and!.
    + simpl. by rewrite Hen.
    + intros ev s'. unfold gateDispatch. cbn [fst].
      rewrite decide_True by done.
      destruct ev as [v| |date|]; cbn [offered gateStep fst snd].
      * intros [= <-] Hl. by cbn [fst] in Hl.
      * intros [= <-] Hl. by cbn [fst] in Hl.
      * unfold handleSubmit. intros Hs Hl. exists date. split; [done|].
        destruct (decide (code g = ADMIN_CODE)); [by left|].
        destruct (decide (code g = getClientCode (adminSettings w) date));
          [by right|].
        injection Hs as <-. by cbn [fst] in Hl.
      * by rewrite Hen.
    + intros Hc evs s' Hevs Hrun.
      destruct (gateRun_without_code w g evs s' Hnone Hen Hc Hevs Hrun) as [-> _].
      done.
Qed.

Lemma guest_path_only_when_gate_disabled_witness :
  (offered (adminSettings (gateWorld false)) ContinueAsGuest = true
   ∧ ∃ s', gateDispatch ContinueAsGuest (gateWorld false, initialGate) = Some s'
           ∧ accessLevel s'.1 = client)
  ∧ (offered (adminSettings (gateWorld true)) ContinueAsGuest = false
     ∧ accessLevel
         (gateStep (Submit sampleDate)
            (gateStep ToggleShowPassword
               (gateStep (Submit sampleDate) (gateWorld true, initialGate)))).1
       = none).
Proof.
  split.
  - apply (proj1 (guest_path_only_when_gate_disabled (gateWorld false) initialGate
                    eq_refl)).
    reflexivity.
  - destruct (proj2 (guest_path_only_when_gate_disabled (gateWorld true) initialGate
                       eq_refl) eq_refl) as (Hoff & _ & Hrun).
    split; [exact Hoff|].
    apply (Hrun eq_refl [Submit sampleDate; ToggleShowPassword; Submit sampleDate]).
    + repeat constructor.
    + reflexivity.
Defined.

End AccessGateFacts.

(** * More of the component *)

(** ** The storage hook *)

Module LocalStorageFacts.
Import LocalStorage.

(** X1. A cell starts with its initial value whenever the storage
    cannot be read, has no item or an empty item under the key, or holds
    an item that does not parse. *)
Theorem initialState_falls_back {T} (parse : string → option T) key
    (initialValue : T) st :
  readable st = false
  ∨ items st !! key = None
  ∨ items st !! key = Some ""
  ∨ (∃ item, items st !! key = Some item ∧ parse item = None) →
  initialState parse key initialValue st = initialValue.
Proof.
  unfold initialState, getItem.
  intros [Hr|[Hk|[Hk|(item & Hk & Hp)]]].
  - by rewrite Hr.
  - destruct (readable st); [|done]. by rewrite Hk.
  - destruct (readable st); [|done]. by rewrite Hk.
  - destruct (readable st); [|done]. rewrite Hk. simpl.
    destruct item; [done|]. simpl. by rewrite Hp.
Qed.

Lemma initialState_falls_back_witness :
  initialState parseBool "gate" true sampleStore = true
  ∧ initialState parseBool "other" true
      {| items := {[ "other" := "maybe" ]}; readable := true; writable := true |}
    = true.
Proof.
  split.
  - apply (initialState_falls_back parseBool "gate" true sampleStore).
    right. left. reflexivity.
  - apply (initialState_falls_back parseBool "other" true
             {| items := {[ "other" := "maybe" ]}; readable := true;
                writable := true |}).
    right. right. right. exists "maybe". split; reflexivity.
Defined.

(** X2. What [setValue] puts in the cell is what a later mount reads
    back, provided the storage takes the write and the encoding of the
    value is not empty and parses to the value; of two writes the later
    one is read. When the storage refuses the write, the cell still
    changes and a later mount reads what it would have read before. *)
Theorem setValue_then_mount {T} (stringify : T → string) (parse : string → option T)
    key (initialValue storedValue : T) (value : T + (T → T)) st :
  readable st = true →
  (writable st = true →
   parse (stringify (setValue stringify key storedValue value st).1)
   = Some (setValue stringify key storedValue value st).1 →
   stringify (setValue stringify key storedValue value st).1 ≠ "" →
   initialState parse key initialValue (setValue stringify key storedValue value st).2
   = (setValue stringify key storedValue value st).1
   ∧ ∀ earlier stored0,
       initialState parse key initialValue
         (setValue stringify key storedValue value
            (setValue stringify key stored0 earlier st).2).2
       = (setValue stringify key storedValue value st).1)
  ∧ (writable st = false →
     (setValue stringify key storedValue value st).1
     = match value with inl v => v | inr f => f storedValue end
     ∧ initialState parse key initialValue
         (setValue stringify key storedValue value st).2
       = initialState parse key initialValue st).
Proof.
  destruct st as [its rd wr]. simpl. intros ->.
  unfold setValue, setItem, initialState, getItem. split.
  - intros ->. simpl. intros Hp Hne. rewrite !lookup_insert_eq. simpl.
    set (v := match value with inl v => v | inr f => f storedValue end) in *.
    split.
    + destruct (stringify v) eqn:E; [done|]. simpl. by rewrite Hp.
    + intros earlier stored0. rewrite lookup_insert_eq. simpl.
      destruct (stringify v) eqn:E; [done|]. simpl. by rewrite Hp.
  - by intros ->.
Qed.

Lemma setValue_then_mount_witness :
  initialState parseBool "gate" true
    (setValue stringifyBool "gate" true (inr negb) sampleStore).2 = false
  ∧ initialState parseBool "gate" true
      (setValue stringifyBool "gate" true (inr negb)
         {| items := items sampleStore; readable := true; writable := false |}).2
    = initialState parseBool "gate" true
        {| items := items sampleStore; readable := true; writable := false |}.
Proof.
  split.
  - apply (proj1 (setValue_then_mount stringifyBool parseBool "gate" true true
                    (inr negb) sampleStore eq_refl)
             eq_refl eq_refl).
    discriminate.
  - apply (proj2 (setValue_then_mount stringifyBool parseBool "gate" true true
                    (inr negb)
                    {| items := items sampleStore; readable := true;
                       writable := false |} eq_refl)
             eq_refl).
Defined.

(** X3. The cells do not disturb each other: writing one key leaves
    what a mount reads under any other key as it was, whatever the two
    types and encodings are. *)
Theorem setValue_other_key {T U} (stringify : T → string)
    (parse' : string → option U) key key' (storedValue : T)
    (value : T + (T → T)) (initialValue' : U) st :
  key ≠ key' →
  initialState parse' key' initialValue'
    (setValue stringify key storedValue value st).2
  = initialState parse' key' initialValue' st.
Proof.
  intros Hne. destruct st as [its rd wr].
  unfold setValue, setItem, initialState, getItem. simpl.
  destruct wr; simpl; [|done].
  destruct rd; [|done]. by rewrite lookup_insert_ne.
Qed.

Lemma setValue_other_key_witness :
  initialState parseBool "other" true
    (setValue stringifyBool "gate" true (inl false) sampleStore).2
  = initialState parseBool "other" true sampleStore.
Proof.
  apply (setValue_other_key stringifyBool parseBool "gate" "other" true
           (inl false) true sampleStore).
  discriminate.
Defined.

End LocalStorageFacts.

(** ** The states a generation goes through *)

Lemma extends_weaken (P Q : World → Prop) r r' :
  (∀ s, P s → Q s) → extends P r r' → extends Q r r'.
Proof.
  intros H (new & E & F & W). exists new. split_and!; [done| |by apply H].
  eapply Forall_impl; [exact F|done].
Qed.

(** While the loop runs, the prompt on display is always the fragments
    received so far, and whatever else held and does not depend on the
    prompt still holds. *)
Lemma forAwait_generateChunk_extends (Q : World → Prop) chunks0 received chunks
    failure acc r :
  (∀ v w, Q w → Q (with_generatedPrompt v w)) →
  chunks0 = received ++ chunks →
  Q (world r) →
  generatedPrompt (world r) = concatFragments received →
  extends (λ s, Q s ∧ ∃ pre suf, chunks0 = pre ++ suf
                                 ∧ generatedPrompt s = concatFragments pre)
    r (forAwait chunks failure generateChunk acc r).2.
Proof.
  intros HQ. revert received acc r.
  induction chunks as [|c rest IH]; intros received acc r Hc Hq Hg.
  - assert ((forAwait [] failure generateChunk acc r).2 = r) as ->
      by (simpl; by destruct failure).
    apply extends_refl. split; [done|]. by exists received, [].
  - rewrite forAwait_cons.
    assert (chunks0 = (received ++ [c]) ++ rest) as Hc'
      by (by rewrite <- (assoc_L (++))).
    destruct (truthy (text c)) eqn:Ht.
    + destruct c as [[t|]]; [|done]. simpl in Ht.
      rewrite generateChunk_truthy by done.
      assert (generatedPrompt (world r) +:+ t
              = concatFragments (received ++ [{| text := Some t |}])) as Hg'.
      { rewrite Hg, concatFragments_app, concatFragments_cons_Some.
        by rewrite concatFragments_nil, string_app_nil_r. }
      set (r1 := {| world := with_generatedPrompt (generatedPrompt (world r) +:+ t)
                               (world r);
                    published := world r :: published r |}).
      apply (extends_trans _ r r1).
      * exists [world r]. split; [done|split].
        -- apply Forall_singleton. split; [done|].
           by exists received, ({| text := Some t |} :: rest).
        -- split; [by apply HQ|].
           by exists (received ++ [{| text := Some t |}]), rest.
      * apply (IH (received ++ [{| text := Some t |}]) (acc +:+ t) r1 Hc').
        -- by apply HQ.
        -- exact Hg'.
    + rewrite generateChunk_falsy by done.
      apply (IH (received ++ [c]) acc r Hc' Hq).
      rewrite Hg, concatFragments_app, (concatFragments_cons_falsy c) by done.
      by rewrite concatFragments_nil, string_app_nil_r.
Qed.

(** The run of a generation, state by state: the start, the loading
    flag going up and the error going down, then states in which the
    flag is up and the prompt is the fragments received so far, then the
    last state. *)
Lemma generation_states c input genTone genAudience reply uuid now w :
  ∃ streaming,
    trace (generation (Some c) input genTone genAudience reply uuid now w)
    = [w; with_isLoading true w; with_error None (with_isLoading true w)]
      ++ streaming
      ++ [final (generation (Some c) input genTone genAudience reply uuid now w)]
    ∧ Forall (λ s, isLoading s = true
                   ∧ ∃ pre suf, chunksOf reply = pre ++ suf
                                ∧ generatedPrompt s = concatFragments pre)
        streaming.
Proof.
  set (Inv := λ s, isLoading s = true
                   ∧ ∃ pre suf, chunksOf reply = pre ++ suf
                                ∧ generatedPrompt s = concatFragments pre).
  assert (∀ s, isLoading s = true → generatedPrompt s = "" → Inv s) as Hstart.
  { intros s Hl Hg. split; [done|]. by exists [], (chunksOf reply). }
  unfold generation, invoke, trace, final, handleGeneratePrompt, generateTry,
    resetChatStates, setHistory.
  destruct reply as [e|cs f]; run.
  - eexists [_; _; _; _; _; _; _; _]. split.
    + cbn [reverse rev_append app]. reflexivity.
    + repeat (apply Forall_cons; split; [by apply Hstart|]). apply Forall_nil_2.
  - rewrite bind_run.
    match goal with
    | |- context [forAwait cs f generateChunk "" ?R] =>
        pose proof (forAwait_generateChunk_extends (λ s, isLoading s = true)
                      cs [] cs f "" R ltac:(done) eq_refl eq_refl eq_refl) as X;
        destruct (forAwait_generateChunk cs f "" R) as (r' & E & W);
        rewrite E in X |- *
    end.
    cbn [snd chunksOf] in X. fold Inv in X. destruct X as (new & Ep & Fn & Wn).
    cbn [published] in Ep.
    destruct f as [e|]; run; rewrite Ep.
    + eexists ([_; _; _; _; _; _] ++ reverse new ++ [_; _]). split.
      * rewrite !reverse_cons, reverse_app. cbn [reverse rev_append app].
        rewrite <- !(assoc_L (++)). cbn [app]. reflexivity.
      * apply Forall_app. split.
        { repeat (apply Forall_cons; split; [by apply Hstart|]). apply Forall_nil_2. }
        apply Forall_app. split; [by apply Forall_reverse|].
        repeat (apply Forall_cons; split; [exact Wn|]). apply Forall_nil_2.
    + eexists ([_; _; _; _; _; _] ++ reverse new ++ [_; _; _]). split.
      * rewrite !reverse_cons, reverse_app. cbn [reverse rev_append app].
        rewrite <- !(assoc_L (++)). cbn [app]. reflexivity.
      * apply Forall_app. split.
        { repeat (apply Forall_cons; split; [by apply Hstart|]). apply Forall_nil_2. }
        apply Forall_app. split; [by apply Forall_reverse|].
        repeat (apply Forall_cons; split; [exact Wn|]). apply Forall_nil_2.
Qed.

(** X4. From the moment its loading flag goes up until its last state,
    a generation with a client keeps the flag up in every state it
    publishes, whatever the backend answers; the last state has it
    down. *)
Theorem loading_flag_held c input genTone genAudience reply uuid now w :
  ∃ mid,
    trace (generation (Some c) input genTone genAudience reply uuid now w)
    = w :: mid
      ++ [final (generation (Some c) input genTone genAudience reply uuid now w)]
    ∧ mid ≠ []
    ∧ Forall (λ s, isLoading s = true) mid
    ∧ isLoading (final (generation (Some c) input genTone genAudience reply uuid now w))
      = false.
Proof.
  destruct (generation_states c input genTone genAudience reply uuid now w)
    as (streaming & T & F).
  destruct (handleGeneratePrompt_final c input genTone genAudience reply uuid now w)
    as [_ Hf].
  exists ([with_isLoading true w; with_error None (with_isLoading true w)] ++ streaming).
  split_and!.
  - rewrite T. by rewrite <- !(assoc_L (++)).
  - done.
  - apply Forall_app. split.
    + repeat (apply Forall_cons; split; [done|]). apply Forall_nil_2.
    + eapply Forall_impl; [exact F|]. by intros s [? _].
  - by rewrite Hf.
Qed.

(** X5. Once a generation has emptied the prompt, the prompt on display
    is, in every state up to the last, the concatenation of the
    fragments received so far: it is a beginning of the whole answer
    and in the last state it is everything received. *)
Theorem prompt_grows_by_fragments c input genTone genAudience reply uuid now w :
  ∃ after,
    trace (generation (Some c) input genTone genAudience reply uuid now w)
    = [w; with_isLoading true w; with_error None (with_isLoading true w)] ++ after
    ∧ last after
      = Some (final (generation (Some c) input genTone genAudience reply uuid now w))
    ∧ Forall (λ s, (∃ pre suf, chunksOf reply = pre ++ suf
                               ∧ generatedPrompt s = concatFragments pre)
                   ∧ ∃ rest, concatFragments (chunksOf reply)
                             = generatedPrompt s +:+ rest) after
    ∧ generatedPrompt
        (final (generation (Some c) input genTone genAudience reply uuid now w))
      = concatFragments (chunksOf reply).
Proof.
  destruct (generation_states c input genTone genAudience reply uuid now w)
    as (streaming & T & F).
  destruct (handleGeneratePrompt_final c input genTone genAudience reply uuid now w)
    as [_ Hf].
  assert (generatedPrompt
            (final (generation (Some c) input genTone genAudience reply uuid now w))
          = concatFragments (chunksOf reply)) as Hg by (by rewrite Hf).
  assert (∀ s, (∃ pre suf, chunksOf reply = pre ++ suf
                           ∧ generatedPrompt s = concatFragments pre) →
               ∃ rest, concatFragments (chunksOf reply) = generatedPrompt s +:+ rest)
    as Hpre.
  { intros s (pre & suf & -> & ->). exists (concatFragments suf).
    apply concatFragments_app. }
  eexists. split_and!; [exact T|apply last_snoc| |exact Hg].
  apply Forall_app. split.
  - eapply Forall_impl; [exact F|]. intros s [_ H]. split; [done|by apply Hpre].
  - apply Forall_singleton.
    assert (∃ pre suf, chunksOf reply = pre ++ suf
                       ∧ generatedPrompt
                           (final (generation (Some c) input genTone genAudience
                                     reply uuid now w))
                         = concatFragments pre) as H.
    { exists (chunksOf reply), []. by rewrite app_nil_r. }
    split; [done|by apply Hpre].
Qed.

(** ** Starting a generation from the form, a card or the history *)

(** A generation on any run: the state it leaves is the state it found
    with the fields of [handleGeneratePrompt_final] set, the history
    being computed from the render. *)
Lemma handleGeneratePrompt_from c input genTone genAudience reply uuid now render r :
  ∃ r',
    handleGeneratePrompt (Some c) input genTone genAudience reply uuid now render r
    = (Returned (), r')
    ∧ world r' =
      {| adminSettings := adminSettings (world r); accessLevel := accessLevel (world r);
         formUserInput := formUserInput (world r); formTone := formTone (world r);
         formTargetAudience := formTargetAudience (world r);
         generatedPrompt := concatFragments (chunksOf reply);
         isLoading := false;
         error := errorMessage <$> failureOf reply;
         history :=
           match failureOf reply with
           | None => {| id := uuid; prompt := concatFragments (chunksOf reply);
                        timestamp := now; userInput := input; tone := genTone;
                        targetAudience := genAudience |} :: take 49 (history render)
           | Some _ => history (world r)
           end;
         activeTab := refine;
         chatHistory := [];
         isChatLoading := isChatLoading (world r);
         originalPromptForChat :=
           match failureOf reply with
           | None => concatFragments (chunksOf reply)
           | Some _ => originalPromptForChat (world r)
           end;
         testChatHistory := [];
         isTestChatLoading := isTestChatLoading (world r);
         testChatRef := None;
         requests := requests (world r) ++
           [GenerateContentStream "gemini-2.5-flash"
              (fullPrompt input genTone genAudience) GENERATE_SYSTEM_INSTRUCTION] |}.
Proof.
  unfold handleGeneratePrompt, generateTry, resetChatStates, setHistory.
  destruct reply as [e|cs f]; run; [eexists; split; reflexivity|].
  rewrite bind_run.
  match goal with
  | |- context [forAwait cs f generateChunk "" ?R] =>
      destruct (forAwait_generateChunk cs f "" R) as (r' & E & W); rewrite E
  end.
  cbn [world generatedPrompt with_request with_error with_activeTab
       with_testChatRef with_testChatHistory with_chatHistory
       with_generatedPrompt] in W.
  rewrite string_app_nil_l in W.
  destruct f as [e|]; run; (eexists; split; [reflexivity|]); cbn [world];
    rewrite W; reflexivity.
Qed.

(** X6. A recommended card starts a generation whose history item has
    the card's title and description as its description, the tone
    "Professional" and the audience "General users", whatever the form
    holds; the tone and audience cells of the form are not touched. The
    tone is none of the tones the form offers, and selecting the item
    later puts it in the tone cell. *)
Theorem recommended_card c title description chunks uuid now w :
  let res := invoke (handleRecommendedClick (Some c) title description
                       (Streaming chunks None) uuid now) w in
  let item := {| id := uuid; prompt := concatFragments chunks; timestamp := now;
                 userInput := title +:+ ". " +:+ description;
                 tone := "Professional"; targetAudience := "General users" |} in
  res.1 = Returned ()
  ∧ history (final res) = item :: take 49 (history w)
  ∧ formUserInput (final res) = title +:+ ". " +:+ description
  ∧ formTone (final res) = formTone w
  ∧ formTargetAudience (final res) = formTargetAudience w
  ∧ (tone item ∉ TONES)
  ∧ formTone (final (invoke (handleSelectHistory item) (final res))) = tone item.
Proof.
  intros res item. subst res. unfold invoke, final, handleRecommendedClick.
  cbv zeta. rewrite bind_step.
  match goal with
  | |- context [handleGeneratePrompt (Some c) ?i ?t ?a ?rp uuid now w ?R] =>
      destruct (handleGeneratePrompt_from c i t a rp uuid now w R) as (r' & E & W)
  end.
  rewrite E. cbn [fst snd]. rewrite W. cbn [world history formUserInput formTone
    formTargetAudience failureOf chunksOf with_form].
  split_and!; [done..| |done].
  apply (bool_decide_unpack _). vm_compute. exact I.
Qed.

Lemma handleSelectHistory_final item w :
  final (invoke (handleSelectHistory item) w) =
  {| adminSettings := adminSettings w; accessLevel := accessLevel w;
     formUserInput := userInput item; formTone := tone item;
     formTargetAudience := targetAudience item;
     generatedPrompt := prompt item; isLoading := isLoading w;
     error := None; history := history w; activeTab := refine;
     chatHistory := []; isChatLoading := isChatLoading w;
     originalPromptForChat := prompt item;
     testChatHistory := [];
     isTestChatLoading := isTestChatLoading w;
     testChatRef := None; requests := requests w |}.
Proof. done. Qed.

(** X7. Selecting a history item restores its description, tone,
    audience and prompt, makes its prompt the refine anchor, empties
    both threads and drops the test handle without asking the backend or
    changing the history. Selecting it again changes nothing, selecting
    the item a generation has just created only fills the form with what
    the generation was started with, and the next test message is bound
    to the item's prompt. *)
Theorem select_history_item item w :
  prompt item ≠ "" →
  (generatedPrompt (final (invoke (handleSelectHistory item) w)) = prompt item
   ∧ originalPromptForChat (final (invoke (handleSelectHistory item) w)) = prompt item
   ∧ formUserInput (final (invoke (handleSelectHistory item) w)) = userInput item
   ∧ formTone (final (invoke (handleSelectHistory item) w)) = tone item
   ∧ formTargetAudience (final (invoke (handleSelectHistory item) w))
     = targetAudience item
   ∧ chatsReset (final (invoke (handleSelectHistory item) w))
   ∧ history (final (invoke (handleSelectHistory item) w)) = history w
   ∧ requests (final (invoke (handleSelectHistory item) w)) = requests w)
  ∧ final (invoke (handleSelectHistory item)
             (final (invoke (handleSelectHistory item) w)))
    = final (invoke (handleSelectHistory item) w)
  ∧ (∀ c g w0,
       final (invoke (handleSelectHistory (newItem g)) (generate (Some c) g w0))
       = with_form (c_input g) (c_tone g) (c_audience g) (generate (Some c) g w0))
  ∧ (∀ c message reply,
       testChatRef
         (final (invoke (handleSendTestMessage (Some c) message reply)
                   (final (invoke (handleSelectHistory item) w))))
       = Some {| chat_systemInstruction := PromptText (prompt item);
                 chat_history := [] |}).
Proof.
  intros Hp. rewrite !handleSelectHistory_final. split_and!; try done.
  - intros c g w0. rewrite handleSelectHistory_final. unfold generate.
    destruct (handleGeneratePrompt_final c (c_input g) (c_tone g) (c_audience g)
                (Streaming (c_chunks g) None) (c_uuid g) (c_now g) w0) as [_ F].
    by rewrite F.
  - intros c message reply. by rewrite test_message_handle.
Qed.

Lemma select_history_item_witness :
  testChatRef
    (final (invoke (handleSendTestMessage (Some sampleClient) "hello" brokenStream)
              (final (invoke (handleSelectHistory (sampleItem "a" "one")) sampleWorld))))
  = Some {| chat_systemInstruction := PromptText (prompt (sampleItem "a" "one"));
            chat_history := [] |}.
Proof.
  refine (proj2 (proj2 (proj2 (select_history_item (sampleItem "a" "one")
                                 sampleWorld _)))
            sampleClient "hello" brokenStream).
  discriminate.
Defined.

(** *** The history over any sequence of events *)

Lemma historyStep_ids c ev w x :
  x ∈ id <$> history (historyStep (Some c) ev w) →
  x ∈ generatedIds [ev] ++ (id <$> history w).
Proof.
  destruct ev as [g|id0|confirmed|item]; cbn [historyStep generatedIds omap
    list_omap app].
  - rewrite generate_history, fmap_cons. cbn [id newItem].
    intros [->|H]%elem_of_cons; [left|right].
    apply list_elem_of_fmap in H as (y & -> & Hy).
    apply list_elem_of_fmap. exists y. split; [done|]. by apply (subseteq_take 49).
  - rewrite handleClearHistoryItem_final. simpl.
    intros (y & -> & Hy)%list_elem_of_fmap.
    apply list_elem_of_fmap. exists y. split; [done|].
    by apply list_elem_of_filter in Hy as [_ ?].
  - destruct confirmed; [|done]. by intros ?%elem_of_nil.
  - done.
Qed.

Lemma historyStep_well_formed c ev w :
  NoDup (generatedIds [ev] ++ (id <$> history w)) →
  (length (history w) ≤ 50)%nat →
  NoDup (id <$> history (historyStep (Some c) ev w))
  ∧ (length (history (historyStep (Some c) ev w)) ≤ 50)%nat.
Proof.
  destruct ev as [g|id0|confirmed|item];
    cbn [historyStep generatedIds omap list_omap app]; intros Hnd Hlen.
  - apply NoDup_cons in Hnd as [Hfresh Hnd]. split.
    + by apply generate_ids_distinct.
    + rewrite generate_history. simpl. rewrite length_take. lia.
  - split; [by apply delete_ids_distinct|].
    rewrite handleClearHistoryItem_final. simpl.
    etrans; [apply length_filter|done].
  - destruct confirmed; [split; [apply NoDup_nil_2|simpl; lia]|done].
  - done.
Qed.

(** X8. Starting from at most 50 entries with pairwise distinct
    identifiers, any sequence of completed generations, deletions,
    clearings and selections leaves at most 50 entries with pairwise
    distinct identifiers, as long as the identifiers handed out are new
    and differ from each other. *)
Theorem history_stays_well_formed c evs w :
  NoDup (generatedIds evs ++ (id <$> history w)) →
  (length (history w) ≤ 50)%nat →
  NoDup (id <$> history (historyRun (Some c) evs w))
  ∧ (length (history (historyRun (Some c) evs w)) ≤ 50)%nat.
Proof.
  revert w. induction evs as [|ev evs IH]; intros w Hnd Hlen.
  - simpl in *. done.
  - change (historyRun (Some c) (ev :: evs) w)
      with (historyRun (Some c) evs (historyStep (Some c) ev w)).
    assert (generatedIds (ev :: evs) = generatedIds [ev] ++ generatedIds evs) as Hsplit
      by (by destruct ev).
    rewrite Hsplit in Hnd.
    rewrite <- (assoc_L (++)) in Hnd.
    apply NoDup_app in Hnd as (Hev & Hdisj & Hrest).
    apply NoDup_app in Hrest as (Hevs & Hdisj' & Hw).
    destruct (historyStep_well_formed c ev w) as [Hnd' Hlen']; [|done|].
    { apply NoDup_app. split_and!; [done| |done].
      intros x Hx Hin. apply (Hdisj x Hx). apply elem_of_app. by right. }
    apply IH; [|done].
    apply NoDup_app. split_and!; [done| |done].
    intros x Hx Hin. apply historyStep_ids in Hin.
    apply elem_of_app in Hin as [Hin|Hin].
    + apply (Hdisj x Hin). apply elem_of_app. by left.
    + by apply (Hdisj' x Hx).
Qed.

Lemma history_stays_well_formed_witness :
  NoDup (id <$> history
           (historyRun (Some sampleClient)
              ((Generated ∘ sampleGeneration <$> seq 0 60)
               ++ [Deleted "07"; Selected (sampleItem "a" "one"); ClearedAll false])
              sampleWorld))
  ∧ (length (history
               (historyRun (Some sampleClient)
                  ((Generated ∘ sampleGeneration <$> seq 0 60)
                   ++ [Deleted "07"; Selected (sampleItem "a" "one"); ClearedAll false])
                  sampleWorld)) ≤ 50)%nat.
Proof.
  apply (history_stays_well_formed sampleClient
           ((Generated ∘ sampleGeneration <$> seq 0 60)
            ++ [Deleted "07"; Selected (sampleItem "a" "one"); ClearedAll false])
           sampleWorld).
  - apply (bool_decide_unpack _). vm_compute. exact I.
  - simpl. lia.
Defined.

(** ** Refine and test turns *)

Lemma testChunk_falsy acc c r :
  truthy (text c) = false → testChunk acc c r = (Returned acc, r).
Proof. by destruct c as [[[|??]|]]. Qed.

Lemma testChunk_truthy acc t r h :
  truthy (Some t) = true →
  setLastContent (acc +:+ t) (testChatHistory (world r)) = Some h →
  testChunk acc {| text := Some t |} r =
  (Returned (acc +:+ t),
   {| world := with_testChatHistory h (world r);
      published := world r :: published r |}).
Proof.
  intros Ht Hh. destruct t; [done|].
  unfold testChunk. simpl. rewrite bind_run. unfold stepPartial.
  simpl. by rewrite Hh.
Qed.

Lemma forAwait_testChunk chunks failure acc r pre ro :
  testChatHistory (world r) = pre ++ [{| role := ro; content := acc |}] →
  ∃ r', forAwait chunks failure testChunk acc r =
          (match failure with
           | None => Returned (acc +:+ concatFragments chunks)
           | Some e => Threw e
           end, r')
        ∧ world r' = with_testChatHistory
                       (pre ++ [{| role := ro; content := acc +:+ concatFragments chunks |}])
                       (world r).
Proof.
  revert acc r. induction chunks as [|c rest IH]; intros acc r Hc.
  - exists r. rewrite concatFragments_nil, !string_app_nil_r. split.
    + simpl. by destruct failure.
    + rewrite <- Hc. by destruct r as [[] ?].
  - rewrite forAwait_cons. destruct (truthy (text c)) eqn:Ht.
    + destruct c as [[t|]]; [|done]. simpl in Ht.
      erewrite testChunk_truthy; [|done|by rewrite Hc, setLastContent_snoc].
      destruct (IH (acc +:+ t)
                   {| world := with_testChatHistory
                                 (pre ++ [{| role := ro; content := acc +:+ t |}]) (world r);
                      published := world r :: published r |} eq_refl)
        as (r' & E & W).
      exists r'. simpl. split.
      * rewrite E, concatFragments_cons_Some.
        destruct failure; [done|]. by rewrite string_app_assoc.
      * rewrite W, concatFragments_cons_Some. simpl.
        by rewrite string_app_assoc.
    + rewrite testChunk_falsy, concatFragments_cons_falsy by done.
      by apply IH.
Qed.

Lemma stepPartial_last_test_run c r pre m :
  testChatHistory (world r) = pre ++ [m] →
  stepPartial (fun w =>
      newHistory ← setLastContent c (testChatHistory w);
      Some (with_testChatHistory newHistory w)) r =
  (Returned (),
   {| world := with_testChatHistory (pre ++ [{| role := role m; content := c |}]) (world r);
      published := world r :: published r |}).
Proof.
  intros H. unfold stepPartial. by rewrite H, setLastContent_snoc.
Qed.

(** A test turn with a client and a prompt always returns; the thread
    gains the user message and one model message holding the whole
    answer or the error marker, and the message goes to the handle of
    the thread, created now if there was none. *)
Lemma handleSendTestMessage_final c message reply w :
  generatedPrompt w ≠ "" →
  let res := invoke (handleSendTestMessage (Some c) message reply) w in
  let chat := default {| chat_systemInstruction := PromptText (generatedPrompt w);
                         chat_history := [] |} (testChatRef w) in
  res.1 = Returned () ∧
  final res =
    {| adminSettings := adminSettings w; accessLevel := accessLevel w;
       formUserInput := formUserInput w; formTone := formTone w;
       formTargetAudience := formTargetAudience w;
       generatedPrompt := generatedPrompt w;
       isLoading := isLoading w;
       error := error w;
       history := history w;
       activeTab := activeTab w;
       chatHistory := chatHistory w;
       isChatLoading := isChatLoading w;
       originalPromptForChat := originalPromptForChat w;
       testChatHistory :=
         (testChatHistory w ++ [{| role := user; content := message |}]) ++
         [{| role := model;
             content :=
               match failureOf reply with
               | None => concatFragments (chunksOf reply)
               | Some e => "Error: " +:+ errorMessage e
               end |}];
       isTestChatLoading := false;
       testChatRef := Some chat;
       requests := requests w ++ [SendMessageStream chat message] |}.
Proof.
  intros Hp res chat. subst res chat.
  assert (truthy (Some (generatedPrompt w)) = true) as Ht
    by (by destruct (generatedPrompt w)).
  unfold invoke, final, handleSendTestMessage. rewrite Ht.
  rewrite !bind_step. cbn [world published].
  assert (∀ l : list ChatMessage,
            l ++ [{| role := user; content := message |};
                  {| role := model; content := "" |}] =
            (l ++ [{| role := user; content := message |}]) ++
            [{| role := model; content := "" |}]) as Hsnoc
    by (intros l; by rewrite <- (assoc_L (++))).
  cbn [testChatHistory with_isTestChatLoading]. rewrite Hsnoc.
  rewrite tryFinally_run, tryCatch_run, bind_get.
  cbn [world testChatRef with_testChatHistory with_isTestChatLoading].
  unfold testStream.
  destruct (testChatRef w) as [ch|] eqn:Eref; cbn [default].
  - rewrite bind_ret.
    destruct reply as [e|cs f]; run.
    + erewrite stepPartial_last_test_run by reflexivity. run.
      split; [reflexivity|]. clear -Eref. destruct w. simpl in Eref. by subst.
    + rewrite bind_run.
      match goal with
      | |- context [forAwait cs f testChunk "" ?R] =>
          destruct (forAwait_testChunk cs f "" R
                      (testChatHistory w ++ [{| role := user; content := message |}])
                      model eq_refl) as (r' & E & W); rewrite E
      end.
      rewrite string_app_nil_l in W.
      destruct f as [e|]; run.
      * erewrite stepPartial_last_test_run by (rewrite W; reflexivity). run.
        split; [reflexivity|]. rewrite W. clear -Eref. destruct w.
        simpl in Eref. by subst.
      * split; [reflexivity|]. rewrite W. clear -Eref. destruct w.
        simpl in Eref. by subst.
  - rewrite bind_assoc_run, bind_step, bind_ret. cbn [world published].
    destruct reply as [e|cs f]; run.
    + erewrite stepPartial_last_test_run by reflexivity. run.
      split; reflexivity.
    + rewrite bind_run.
      match goal with
      | |- context [forAwait cs f testChunk "" ?R] =>
          destruct (forAwait_testChunk cs f "" R
                      (testChatHistory w ++ [{| role := user; content := message |}])
                      model eq_refl) as (r' & E & W); rewrite E
      end.
      rewrite string_app_nil_l in W.
      destruct f as [e|]; run.
      * erewrite stepPartial_last_test_run by (rewrite W; reflexivity). run.
        split; [reflexivity|]. rewrite W. reflexivity.
      * split; [reflexivity|]. rewrite W. reflexivity.
Qed.

(** X9. A test message sent with a non-empty prompt leaves the thread
    with a handle, whatever the backend answers: the handle it found,
    as it was, or, when there was none, a new one whose instruction is
    the generated prompt of that moment. *)
Theorem test_handle_created_or_kept c message reply w :
  generatedPrompt w ≠ "" →
  (∀ chat, testChatRef w = Some chat →
     testChatRef (final (invoke (handleSendTestMessage (Some c) message reply) w))
     = Some chat)
  ∧ (testChatRef w = None →
     testChatRef (final (invoke (handleSendTestMessage (Some c) message reply) w))
     = Some {| chat_systemInstruction := PromptText (generatedPrompt w);
               chat_history := [] |}).
Proof.
  intros Hp. rewrite test_message_handle by done. split.
  - by intros chat ->.
  - by intros ->.
Qed.

Lemma test_handle_created_or_kept_witness :
  testChatRef (final (invoke (handleSendTestMessage (Some sampleClient) "hello"
                                brokenStream) sampleWorld))
  = Some {| chat_systemInstruction := PromptText "old prompt"; chat_history := [] |}
  ∧ testChatRef (final (invoke (handleSendTestMessage (Some sampleClient) "hello"
                                  brokenStream)
                          (with_generatedPrompt "new prompt"
                             (with_testChatRef None sampleWorld))))
    = Some {| chat_systemInstruction :=
                PromptText (generatedPrompt
                              (with_generatedPrompt "new prompt"
                                 (with_testChatRef None sampleWorld)));
              chat_history := [] |}.
Proof.
  split.
  - apply (proj1 (test_handle_created_or_kept sampleClient "hello" brokenStream
                    sampleWorld ltac:(discriminate))).
    reflexivity.
  - apply (proj2 (test_handle_created_or_kept sampleClient "hello" brokenStream
                    (with_generatedPrompt "new prompt"
                       (with_testChatRef None sampleWorld))
                    ltac:(discriminate))).
    reflexivity.
Defined.

(** X10. After the test thread is cleared, the next test message binds
    a new handle to the prompt current at that moment, whatever handle
    there was before; the thread then holds that one exchange only. *)
Theorem cleared_thread_gets_new_handle c message reply w :
  generatedPrompt w ≠ "" →
  testChatRef
    (final (invoke (handleSendTestMessage (Some c) message reply)
              (final (invoke handleClearTestChat w))))
  = Some {| chat_systemInstruction := PromptText (generatedPrompt w);
            chat_history := [] |}
  ∧ length (testChatHistory
              (final (invoke (handleSendTestMessage (Some c) message reply)
                        (final (invoke handleClearTestChat w))))) = 2%nat.
Proof.
  intros Hp. split; [by rewrite test_message_handle|].
  match goal with
  | |- context [invoke (handleSendTestMessage (Some c) message reply) ?W] =>
      destruct (handleSendTestMessage_final c message reply W Hp) as [_ F]
  end.
  by rewrite F.
Qed.

Lemma cleared_thread_gets_new_handle_witness :
  testChatRef
    (final (invoke (handleSendTestMessage (Some sampleClient) "hello" brokenStream)
              (final (invoke handleClearTestChat sampleWorld))))
  = Some {| chat_systemInstruction := PromptText (generatedPrompt sampleWorld);
            chat_history := [] |}
  ∧ length (testChatHistory
              (final (invoke (handleSendTestMessage (Some sampleClient) "hello"
                                brokenStream)
                        (final (invoke handleClearTestChat sampleWorld))))) = 2%nat.
Proof.
  apply (cleared_thread_gets_new_handle sampleClient "hello" brokenStream sampleWorld).
  discriminate.
Defined.



(** X12. Without a client, or with an empty prompt, a test message only
    sets the error message: nothing is sent, the test thread, its
    loading flag and its handle are as before. Without a client a
    refine message does the same with its own message. *)
Theorem chat_guards ai message reply w :
  ai = None ∨ generatedPrompt w = "" →
  (trace (invoke (handleSendTestMessage ai message reply) w)
   = [w; with_error (Some "AI client not initialized or no prompt generated.") w]
   ∧ (invoke (handleSendTestMessage ai message reply) w).1 = Returned ())
  ∧ (ai = None →
     trace (refineTurn ai message reply w)
     = [w; with_error (Some "AI client not initialized. Please configure your API key.") w]
     ∧ (refineTurn ai message reply w).1 = Returned ()).
Proof.
  intros H. split.
  - unfold invoke, handleSendTestMessage.
    destruct H as [->|Hg]; [done|]. rewrite Hg. by destruct ai.
  - by intros ->.
Qed.

Lemma chat_guards_witness :
  (trace (invoke (handleSendTestMessage (Some sampleClient) "hello" brokenStream)
            (with_generatedPrompt "" sampleWorld))
   = [with_generatedPrompt "" sampleWorld;
      with_error (Some "AI client not initialized or no prompt generated.")
        (with_generatedPrompt "" sampleWorld)]
   ∧ (invoke (handleSendTestMessage (Some sampleClient) "hello" brokenStream)
        (with_generatedPrompt "" sampleWorld)).1 = Returned ())
  ∧ (trace (refineTurn None "shorter" brokenStream sampleWorld)
     = [sampleWorld;
        with_error (Some "AI client not initialized. Please configure your API key.")
          sampleWorld]
     ∧ (refineTurn None "shorter" brokenStream sampleWorld).1 = Returned ()).
Proof.
  split.
  - apply (proj1 (chat_guards (Some sampleClient) "hello" brokenStream
                    (with_generatedPrompt "" sampleWorld) (or_intror eq_refl))).
  - apply (proj2 (chat_guards None "shorter" brokenStream sampleWorld
                    (or_introl eq_refl)) eq_refl).
Defined.

(** X13. Each refine turn opens a new backend conversation seeded with
    the refine anchor alone: after a turn that succeeded, the next turn
    is seeded with the answer of that turn, not with the thread. The
    thread gains two messages per turn; the history, the test thread and
    the test handle are left alone by every turn. *)
Theorem refine_turns_chain c message1 chunks1 message2 reply2 w :
  let w1 := final (refineTurn (Some c) message1 (Streaming chunks1 None) w) in
  let w2 := final (refineTurn (Some c) message2 reply2 w1) in
  requests w2
  = requests w
    ++ [ SendMessageStream
           {| chat_systemInstruction := REFINE_SYSTEM_INSTRUCTION;
              chat_history := [{| role := model; content := originalPromptForChat w |}] |}
           message1;
         SendMessageStream
           {| chat_systemInstruction := REFINE_SYSTEM_INSTRUCTION;
              chat_history := [{| role := model; content := concatFragments chunks1 |}] |}
           message2 ]
  ∧ length (chatHistory w2) = (length (chatHistory w) + 4)%nat
  ∧ history w2 = history w
  ∧ testChatHistory w2 = testChatHistory w
  ∧ testChatRef w2 = testChatRef w.
Proof.
  intros w1 w2. subst w2 w1.
  destruct (handleSendMessage_final c message1 (Streaming chunks1 None) w) as [_ F1].
  rewrite F1.
  match goal with
  | |- context [refineTurn (Some c) message2 reply2 ?W] =>
      destruct (handleSendMessage_final c message2 reply2 W) as [_ F2]
  end.
  rewrite F2. split_and!; try done.
  - cbn [requests originalPromptForChat failureOf chunksOf].
    by rewrite <- (assoc_L (++)).
  - cbn [chatHistory]. rewrite !length_app. simpl. lia.
Qed.

(** X14. A refine turn whose stream ends without any text empties the
    generated prompt and the refine anchor; the refine and test panels
    are no longer rendered and a test message is turned down for want of
    a prompt. *)
Theorem refine_without_text c message chunks w :
  concatFragments chunks = "" →
  let w1 := final (refineTurn (Some c) message (Streaming chunks None) w) in
  generatedPrompt w1 = ""
  ∧ originalPromptForChat w1 = ""
  ∧ panelsShown w1 = false
  ∧ ∀ message' reply',
      final (invoke (handleSendTestMessage (Some c) message' reply') w1)
      = with_error (Some "AI client not initialized or no prompt generated.") w1.
Proof.
  intros He w1. subst w1.
  destruct (handleSendMessage_final c message (Streaming chunks None) w) as [_ F].
  rewrite F. cbn [failureOf chunksOf]. rewrite He. split_and!; try done.
Qed.

Lemma refine_without_text_witness :
  let w1 := final (refineTurn (Some sampleClient) "shorter"
                     (Streaming [ {| text := None |}; {| text := Some "" |} ] None)
                     sampleWorld) in
  generatedPrompt w1 = ""
  ∧ originalPromptForChat w1 = ""
  ∧ panelsShown w1 = false
  ∧ ∀ message' reply',
      final (invoke (handleSendTestMessage (Some sampleClient) message' reply') w1)
      = with_error (Some "AI client not initialized or no prompt generated.") w1.
Proof.
  apply (refine_without_text sampleClient "shorter"
           [ {| text := None |}; {| text := Some "" |} ] sampleWorld).
  reflexivity.
Defined.

(** X15. A refine turn leaves an existing test handle in place: the
    next test message goes to that handle, bound to the prompt it was
    created with, although the generated prompt is now the refined one;
    and a saved test conversation names the refined prompt as the
    prompt used. *)
Theorem refine_keeps_test_handle c message chunks w chat :
  testChatRef w = Some chat →
  concatFragments chunks ≠ "" →
  let w1 := final (refineTurn (Some c) message (Streaming chunks None) w) in
  generatedPrompt w1 = concatFragments chunks
  ∧ testChatRef w1 = Some chat
  ∧ (∀ message' reply',
       requests (final (invoke (handleSendTestMessage (Some c) message' reply') w1))
       = requests w1 ++ [SendMessageStream chat message'])
  ∧ ∀ localeDate name,
      SaveChat.blob
        (SaveChat.handleSaveToFile localeDate
           (w1, {| SaveChat.isSaveModalOpen := true;
                   SaveChat.chatToSave := Some test;
                   SaveChat.filename := name |})).1
      = SaveChat.buildFileContent localeDate (concatFragments chunks)
          (testChatHistory w).
Proof.
  intros Hc Hne w1. subst w1.
  destruct (handleSendMessage_final c message (Streaming chunks None) w) as [_ F].
  assert (generatedPrompt (final (refineTurn (Some c) message (Streaming chunks None) w))
          = concatFragments chunks) as Hg by (by rewrite F).
  assert (testChatRef (final (refineTurn (Some c) message (Streaming chunks None) w))
          = Some chat) as Href by (by rewrite F).
  split_and!.
  - done.
  - done.
  - intros message' reply'.
    match goal with
    | |- context [invoke (handleSendTestMessage (Some c) message' reply') ?W] =>
        destruct (handleSendTestMessage_final c message' reply' W) as [_ F'];
          [by rewrite Hg|]
    end.
    rewrite F'. cbn [requests]. by rewrite Href.
  - intros localeDate name. unfold SaveChat.handleSaveToFile.
    cbn [fst snd SaveChat.chatToSave SaveChat.blob]. by rewrite F.
Qed.

Lemma refine_keeps_test_handle_witness :
  let w1 := final (refineTurn (Some sampleClient) "shorter"
                     (Streaming [ {| text := Some "new prompt" |} ] None) sampleWorld) in
  generatedPrompt w1 = concatFragments [ {| text := Some "new prompt" |} ]
  ∧ testChatRef w1
    = Some {| chat_systemInstruction := PromptText "old prompt"; chat_history := [] |}
  ∧ (∀ message' reply',
       requests (final (invoke (handleSendTestMessage (Some sampleClient) message' reply')
                          w1))
       = requests w1
         ++ [SendMessageStream
               {| chat_systemInstruction := PromptText "old prompt";
                  chat_history := [] |} message'])
  ∧ ∀ localeDate name,
      SaveChat.blob
        (SaveChat.handleSaveToFile localeDate
           (w1, {| SaveChat.isSaveModalOpen := true;
                   SaveChat.chatToSave := Some test;
                   SaveChat.filename := name |})).1
      = SaveChat.buildFileContent localeDate
          (concatFragments [ {| text := Some "new prompt" |} ])
          (testChatHistory sampleWorld).
Proof.
  apply (refine_keeps_test_handle sampleClient "shorter"
           [ {| text := Some "new prompt" |} ] sampleWorld
           {| chat_systemInstruction := PromptText "old prompt"; chat_history := [] |}).
  - reflexivity.
  - discriminate.
Defined.

(** ** Saving a conversation *)

Module SaveChatFacts.
Import SaveChat.

Lemma list_ascii_of_string_app s t :
  list_ascii_of_string (s +:+ t) = list_ascii_of_string s ++ list_ascii_of_string t.
Proof.
  induction s as [|a s IH]; [done|].
  rewrite string_app_cons. simpl. by rewrite IH.
Qed.

Lemma endsWith_app s t : endsWith (s +:+ t) t = true.
Proof.
  unfold endsWith. apply bool_decide_eq_true.
  rewrite list_ascii_of_string_app. by apply suffix_app_r.
Qed.

(** X16. The name of the downloaded file always ends with ".txt": a
    name that does is kept, any other gets ".txt" appended, and doing it
    twice changes nothing more. *)
Theorem download_name_ends_with_txt name :
  endsWith (downloadName name) ".txt" = true
  ∧ (downloadName name = name ∨ downloadName name = name +:+ ".txt")
  ∧ downloadName (downloadName name) = downloadName name.
Proof.
  assert (endsWith (downloadName name) ".txt" = true) as H.
  { unfold downloadName. destruct (endsWith name ".txt") eqn:E; [done|].
    apply endsWith_app. }
  split_and!; [done| |].
  - unfold downloadName. destruct (endsWith name ".txt"); [by left|by right].
  - unfold downloadName at 1. by rewrite H.
Qed.

Lemma foldl_appendMessage acc msgs :
  foldl appendMessage acc msgs = acc +:+ transcript msgs.
Proof.
  revert acc. induction msgs as [|m msgs IH]; intros acc; simpl.
  - by rewrite string_app_nil_r.
  - rewrite IH. unfold appendMessage, messageText. cbv zeta.
    by rewrite !string_app_assoc.
Qed.

Lemma transcript_app a b : transcript (a ++ b) = transcript a +:+ transcript b.
Proof.
  induction a as [|m a IH]; [done|]. simpl. by rewrite IH, string_app_assoc.
Qed.

(** X17. The saved file is the heading, with the date and the prompt in
    its frame, followed by the messages in order, each as "User:" or
    "Assistant:", a line break, its content and an empty line; the file
    of a longer thread begins with the file of the shorter one. *)
Theorem file_content_layout localeDate promptForContext msgs more :
  buildFileContent localeDate promptForContext msgs
  = heading localeDate promptForContext +:+ transcript msgs
  ∧ transcript (msgs ++ more) = transcript msgs +:+ transcript more
  ∧ buildFileContent localeDate promptForContext (msgs ++ more)
    = buildFileContent localeDate promptForContext msgs +:+ transcript more.
Proof.
  assert (∀ l, buildFileContent localeDate promptForContext l
               = heading localeDate promptForContext +:+ transcript l) as H.
  { intros l. unfold buildFileContent, heading. cbv zeta.
    rewrite foldl_appendMessage. by rewrite !string_app_assoc. }
  split_and!; [apply H|apply transcript_app|].
  by rewrite !H, transcript_app, string_app_assoc.
Qed.

Example file_content_sample :
  buildFileContent "11/2/2026, 9:00:00 AM" "Be kind."
    [ {| role := user; content := "hi" |}; {| role := model; content := "Hello!" |} ]
  = "Conversation from AI Prompt Generator" +:+ NL +:+
    "Date: 11/2/2026, 9:00:00 AM" +:+ NL +:+ NL +:+
    "====================" +:+ NL +:+
    "SYSTEM PROMPT USED:" +:+ NL +:+
    "====================" +:+ NL +:+ NL +:+
    "Be kind." +:+ NL +:+ NL +:+
    "====================" +:+ NL +:+
    "CONVERSATION:" +:+ NL +:+
    "====================" +:+ NL +:+ NL +:+
    "User:" +:+ NL +:+ "hi" +:+ NL +:+ NL +:+
    "Assistant:" +:+ NL +:+ "Hello!" +:+ NL +:+ NL.
Proof. reflexivity. Qed.

(** X18. Opening the save dialog for a thread and saving without
    touching the name gives a file called after the thread and the day,
    "refine-conversation-<day>.txt" or "test-conversation-<day>.txt",
    with nothing appended. The refine thread is saved with the refine
    anchor as its prompt, the test thread with the generated prompt.
    Saving closes the dialog, forgets the thread and leaves the state of
    the application alone. *)
Theorem open_then_save type0 isoDay localeDate w m :
  let saved := handleSaveToFile localeDate (w, handleOpenSaveModal type0 isoDay m) in
  download saved.1 = typeName type0 +:+ "-conversation-" +:+ isoDay +:+ ".txt"
  ∧ blob saved.1
    = match type0 with
      | refine => buildFileContent localeDate (originalPromptForChat w) (chatHistory w)
      | test => buildFileContent localeDate (generatedPrompt w) (testChatHistory w)
      end
  ∧ saved.2.1 = w
  ∧ isSaveModalOpen saved.2.2 = false
  ∧ chatToSave saved.2.2 = None.
Proof.
  intros saved. subst saved. unfold handleSaveToFile, handleOpenSaveModal.
  cbn [fst snd download blob filename chatToSave isSaveModalOpen].
  split_and!; try done.
  - unfold downloadName.
    assert (endsWith (typeName type0 +:+ "-conversation-" +:+ isoDay +:+ ".txt") ".txt"
            = true) as ->; [|done].
    rewrite <- !string_app_assoc. apply endsWith_app.
  - by destruct type0.
Qed.

End SaveChatFacts.

(** ** Codes, secrets and sessions *)

Module AdminPanelFacts.
Import AccessGate AdminPanel.

Lemma String_of_inj a b : String_of a = String_of b → a = b.
Proof.
  unfold String_of. intros H.
  assert (∀ z, NilZero.int_of_string (NilZero.string_of_int (Z.to_int z))
               = Some (Z.to_int z)) as Hisi.
  { intros z. apply NilZero.isi.
    - destruct z as [|p|p]; [done| |done]. simpl. intros [= Hp].
      by apply DecimalPos.Unsigned.to_uint_nonnil in Hp.
    - destruct z as [|p|p]; [done|done|]. simpl. intros [= Hp].
      by apply DecimalPos.Unsigned.to_uint_nonnil in Hp. }
  apply DecimalZ.to_int_inj.
  apply (inj Some). by rewrite <- !Hisi, H.
Qed.

Lemma string_app_inv_length a b x y :
  String.length a = String.length b → a +:+ x = b +:+ y → a = b ∧ x = y.
Proof.
  revert b. induction a as [|c a IH]; intros [|d b] Hl H;
    simpl in Hl; try discriminate Hl.
  - by split.
  - rewrite !string_app_cons in H. injection H as -> H.
    destruct (IH b) as [-> ->]; [lia|done|done].
Qed.


(** Days 1 to 31 and months 1 to 12 are written on two characters, and
    differently for different numbers. *)
Lemma two_digits :
  Forall (λ a, Forall (λ b,
            String.length (padStart 2 "0" (String_of (Z.of_nat a))) = 2%nat
            ∧ (padStart 2 "0" (String_of (Z.of_nat a))
               = padStart 2 "0" (String_of (Z.of_nat b)) → a = b))
          (seq 1 31)) (seq 1 31).
Proof. apply (bool_decide_unpack _). vm_compute. exact I. Qed.

Lemma two_digits_at a b :
  (1 ≤ a ≤ 31)%Z → (1 ≤ b ≤ 31)%Z →
  String.length (padStart 2 "0" (String_of a)) = 2%nat
  ∧ (padStart 2 "0" (String_of a) = padStart 2 "0" (String_of b) → a = b).
Proof.
  intros Ha Hb. pose proof two_digits as H.
  rewrite Forall_forall in H. specialize (H (Z.to_nat a)).
  rewrite Forall_forall in H.
  destruct (H ltac:(apply elem_of_seq; lia) (Z.to_nat b) ltac:(apply elem_of_seq; lia))
    as [Hl Hi].
  rewrite (Z2Nat.id a) in Hl, Hi by lia. rewrite (Z2Nat.id b) in Hi by lia.
  split; [done|].
  intros E. apply Hi in E. lia.
Qed.

(** X19. For dates of the calendar, the client code of one secret names
    one day: the codes of two dates are equal only if day, month and
    year are. Yesterday's code is not today's. *)
Theorem client_code_names_one_day settings d1 d2 :
  calendarDate d1 → calendarDate d2 →
  getClientCode settings d1 = getClientCode settings d2 →
  d1 = d2.
Proof.
  intros [Hd1 Hm1] [Hd2 Hm2]. unfold getClientCode. cbv zeta. intros H.
  apply (inj (String.app _)) in H. apply (inj (String.app _)) in H.
  destruct (two_digits_at (getDate d1) (getDate d2)) as [Hl1 Hi1]; [lia..|].
  destruct (two_digits_at (getDate d2) (getDate d1)) as [Hl2 _]; [lia..|].
  destruct (two_digits_at (getMonth d1 + 1) (getMonth d2 + 1)) as [Hk1 Hj1]; [lia..|].
  destruct (two_digits_at (getMonth d2 + 1) (getMonth d1 + 1)) as [Hk2 _]; [lia..|].
  apply string_app_inv_length in H as [Hday H]; [|by rewrite Hl1, Hl2].
  apply (inj (String.app _)) in H.
  apply string_app_inv_length in H as [Hmonth H]; [|by rewrite Hk1, Hk2].
  apply (inj (String.app _)) in H. apply String_of_inj in H.
  apply Hi1 in Hday. apply Hj1 in Hmonth.
  destruct d1, d2. simpl in *. f_equal; lia.
Qed.

Lemma client_code_names_one_day_witness :
  {| getDate := 2; getMonth := 10; getFullYear := 2026 |} = sampleDate.
Proof.
  apply (client_code_names_one_day
           {| accessSecret := "CLIENT"; isGateEnabled := true |}
           {| getDate := 2; getMonth := 10; getFullYear := 2026 |} sampleDate).
  - unfold calendarDate. simpl. lia.
  - unfold calendarDate. simpl. lia.
  - reflexivity.
Defined.

Example yesterdays_code_is_turned_down :
  (handleSubmit sampleDate (gateWorld true, gateWith "CLIENT-01-11-2026")).1
  = gateWorld true
  ∧ gateError (handleSubmit sampleDate (gateWorld true, gateWith "CLIENT-01-11-2026")).2
    = "Invalid access code.".
Proof. split; reflexivity. Qed.




(** X21. Logging out brings the gate back and changes the access level
    only: the prompt, both threads, the test handle and the history are
    still there for whoever passes the gate next. *)
Theorem logout_keeps_session w date g :
  code g = ADMIN_CODE ∨ code g = getClientCode (adminSettings w) date →
  screen (final (invoke handleLogout w)) = GateScreen
  ∧ final (invoke handleLogout w) = with_accessLevel none w
  ∧ ∃ level,
      level ≠ none
      ∧ (handleSubmit date (final (invoke handleLogout w), g)).1
        = with_accessLevel level w
      ∧ screen (handleSubmit date (final (invoke handleLogout w), g)).1
        = MainScreen (bool_decide (level = admin)).
Proof.
  intros H. split_and!; [done..|]. unfold handleSubmit.
  destruct (decide (code g = ADMIN_CODE)) as [Ha|Ha].
  - by exists admin.
  - destruct H as [H|H]; [done|]. rewrite decide_True by done. by exists client.
Qed.

Lemma logout_keeps_session_witness :
  screen (final (invoke handleLogout sampleWorld)) = GateScreen
  ∧ final (invoke handleLogout sampleWorld) = with_accessLevel none sampleWorld
  ∧ ∃ level,
      level ≠ none
      ∧ (handleSubmit sampleDate
           (final (invoke handleLogout sampleWorld), gateWith ADMIN_CODE)).1
        = with_accessLevel level sampleWorld
      ∧ screen (handleSubmit sampleDate
                  (final (invoke handleLogout sampleWorld), gateWith ADMIN_CODE)).1
        = MainScreen (bool_decide (level = admin)).
Proof.
  apply (logout_keeps_session sampleWorld sampleDate (gateWith ADMIN_CODE)).
  left. reflexivity.
Defined.

End AdminPanelFacts.

(** ** What is shown after a failure *)

(** X22. After a generation has failed, the output panel shows the
    error message when it is not empty; with an empty message it shows
    the partial prompt, or the placeholder when nothing was received.
    The refine and test panels are rendered exactly when some text was
    received, and a refine turn then works on the anchor from before the
    generation, not on the text on display. *)
Theorem failed_generation_display c input genTone genAudience reply uuid now w e :
  failureOf reply = Some e →
  let w1 := final (generation (Some c) input genTone genAudience reply uuid now w) in
  outputView w1
  = (if truthy (Some (errorMessage e)) then ErrorBox (errorMessage e)
     else if truthy (Some (concatFragments (chunksOf reply)))
          then PromptBox (concatFragments (chunksOf reply))
          else Placeholder)
  ∧ panelsShown w1 = truthy (Some (concatFragments (chunksOf reply)))
  ∧ ∀ message reply',
      requests (final (refineTurn (Some c) message reply' w1))
      = requests w1
        ++ [SendMessageStream
              {| chat_systemInstruction := REFINE_SYSTEM_INSTRUCTION;
                 chat_history := [{| role := model;
                                     content := originalPromptForChat w |}] |}
              message].
Proof.
  intros Hf w1. subst w1.
  destruct (handleGeneratePrompt_final c input genTone genAudience reply uuid now w)
    as [_ F].
  split_and!.
  - rewrite F. unfold outputView, PromptOutput.
    cbn [generatedPrompt isLoading error]. rewrite Hf. simpl.
    destruct (errorMessage e); [|done].
    by destruct (concatFragments (chunksOf reply)).
  - rewrite F. unfold panelsShown. cbn [generatedPrompt isLoading].
    by rewrite andb_true_r.
  - intros message reply'.
    match goal with
    | |- context [refineTurn (Some c) message reply' ?W] =>
        destruct (handleSendMessage_final c message reply' W) as [_ F']
    end.
    rewrite F'. cbn [requests]. do 2 f_equal. rewrite F.
    cbn [originalPromptForChat]. by rewrite Hf.
Qed.

Lemma failed_generation_display_witness :
  let w1 := final (generation (Some sampleClient) "A vacation planner" "Friendly"
                     "Busy parents" brokenStream "id-1" 1700000000000 sampleWorld) in
  outputView w1
  = (if truthy (Some (errorMessage (ErrorObject "network down")))
     then ErrorBox (errorMessage (ErrorObject "network down"))
     else if truthy (Some (concatFragments (chunksOf brokenStream)))
          then PromptBox (concatFragments (chunksOf brokenStream))
          else Placeholder)
  ∧ panelsShown w1 = truthy (Some (concatFragments (chunksOf brokenStream)))
  ∧ ∀ message reply',
      requests (final (refineTurn (Some sampleClient) message reply' w1))
      = requests w1
        ++ [SendMessageStream
              {| chat_systemInstruction := REFINE_SYSTEM_INSTRUCTION;
                 chat_history := [{| role := model;
                                     content := originalPromptForChat sampleWorld |}] |}
              message].
Proof.
  apply (failed_generation_display sampleClient "A vacation planner" "Friendly"
           "Busy parents" brokenStream "id-1" 1700000000000 sampleWorld
           (ErrorObject "network down")).
  reflexivity.
Defined.

(** ** The form of a chat panel *)

Module ChatPanelFacts.
Import ChatPanel.







End ChatPanelFacts.

(** ** Handlers that run during a stream *)

Lemma forAwaitMeanwhile_nil {A} chunks failure (body : A → Chunk → Handler A) acc r :
  forAwaitMeanwhile [] chunks failure body acc r = forAwait chunks failure body acc r.
Proof.
  revert acc r. induction chunks as [|c rest IH]; intros acc r; [done|].
  simpl. rewrite !bind_run. destruct (body acc c r) as [[a|e|] r']; [apply IH|done..].
Qed.

(** With nothing happening at its awaits, the handler with awaits is
    the handler. *)
Lemma handleGeneratePromptMeanwhile_nil ai input genTone genAudience reply uuid now
    render r :
  handleGeneratePromptMeanwhile [] [] ai input genTone genAudience reply uuid now render r
  = handleGeneratePrompt ai input genTone genAudience reply uuid now render r.
Proof.
  unfold handleGeneratePromptMeanwhile, handleGeneratePrompt, generateTry,
    resetChatStates.
  destruct ai as [c|]; [|done].
  repeat (first [rewrite bind_assoc_run | rewrite bind_step]; cbn [world published]).
  rewrite !tryFinally_run, !tryCatch_run.
  destruct reply as [e|cs f]; [done|].
  unfold awaitStreamMeanwhile. cbn [foldr].
  rewrite bind_assoc_run, bind_step, bind_assoc_run, bind_ret, bind_ret.
  rewrite bind_awaitStream_streaming. cbn [fst snd].
  rewrite !(bind_run (forAwaitMeanwhile _ _ _ _ _)), forAwaitMeanwhile_nil.
  by rewrite !(bind_run (forAwait _ _ _ _)).
Qed.

Lemma handleSendTestMessageMeanwhile_nil ai message reply render r :
  handleSendTestMessageMeanwhile [] [] ai message reply render r
  = handleSendTestMessage ai message reply render r.
Proof.
  unfold handleSendTestMessageMeanwhile, handleSendTestMessage, testStream.
  destruct ai as [c|]; [|done]. destruct (truthy _); [|done].
  rewrite !bind_step. cbn [world published].
  rewrite !tryFinally_run, !tryCatch_run, !bind_get.
  assert (∀ chat r0,
    (stream ← awaitStreamMeanwhile [] (SendMessageStream chat message) reply;
     forAwaitMeanwhile [] stream.1 stream.2 testChunk "";; mret ()) r0
    = (stream ← awaitStream (SendMessageStream chat message) reply;
       forAwait stream.1 stream.2 testChunk "";; mret ()) r0) as Hbody.
  { intros chat r0. destruct reply as [e|cs f]; [done|].
    unfold awaitStreamMeanwhile. cbn [foldr].
    rewrite bind_assoc_run, bind_step, bind_assoc_run, bind_ret, bind_ret.
    rewrite bind_awaitStream_streaming. cbn [fst snd].
    rewrite (bind_run (forAwaitMeanwhile _ _ _ _ _)), forAwaitMeanwhile_nil.
    by rewrite (bind_run (forAwait _ _ _ _)). }
  cbn [world].
  match goal with
  | |- context [testChatRef ?W] => destruct (testChatRef W) as [ch|]
  end.
  - by rewrite !bind_ret, Hbody.
  - by rewrite !bind_assoc_run, !bind_step, !bind_ret, Hbody.
Qed.

Lemma meanwhile_run other r : ∃ r', meanwhile other r = (Returned (), r').
Proof. by eexists. Qed.

Lemma generateChunk_returns acc c r :
  ∃ r', generateChunk acc c r = (Returned (acc +:+ concatFragments [c]), r').
Proof.
  destruct (truthy (text c)) eqn:Ht.
  - destruct c as [[t|]]; [|done]. eexists.
    rewrite generateChunk_truthy by done.
    by rewrite concatFragments_cons_Some, concatFragments_nil, string_app_nil_r.
  - exists r. rewrite generateChunk_falsy by done.
    by rewrite concatFragments_cons_falsy, concatFragments_nil, string_app_nil_r.
Qed.

(** Whatever runs in between, the loop hands back the fragments it was
    given: its accumulator is a local of the handler. *)
Lemma forAwaitMeanwhile_generateChunk others chunks failure acc r :
  ∃ r', forAwaitMeanwhile others chunks failure generateChunk acc r =
          (match failure with
           | None => Returned (acc +:+ concatFragments chunks)
           | Some e => Threw e
           end, r').
Proof.
  revert others acc r. induction chunks as [|c rest IH]; intros others acc r.
  - exists r. simpl. rewrite concatFragments_nil, string_app_nil_r. by destruct failure.
  - assert (∀ others' r0, ∃ r',
              (acc' ← generateChunk acc c;
               forAwaitMeanwhile others' rest failure generateChunk acc') r0
              = (match failure with
                 | None => Returned (acc +:+ concatFragments (c :: rest))
                 | Some e => Threw e
                 end, r')) as Hstep.
    { intros others' r0. rewrite bind_run.
      destruct (generateChunk_returns acc c r0) as (r1 & ->).
      destruct (IH others' (acc +:+ concatFragments [c]) r1) as (r' & ->).
      exists r'. destruct failure; [done|].
      by rewrite string_app_assoc, <- concatFragments_app. }
    destruct others as [|other others']; simpl; [apply Hstep|].
    rewrite bind_run. destruct (meanwhile_run other r) as (r0 & ->). apply Hstep.
Qed.

Lemma awaitStreamMeanwhile_streaming pending req cs f r :
  ∃ r', awaitStreamMeanwhile pending req (Streaming cs f) r = (Returned (cs, f), r').
Proof.
  unfold awaitStreamMeanwhile. rewrite bind_step.
  generalize {| world := with_request req (world r);
                published := world r :: published r |}.
  induction pending as [|other pending IH]; intros r0; simpl.
  - by eexists.
  - rewrite bind_assoc_run, bind_run.
    destruct (meanwhile_run other r0) as (r1 & ->). apply IH.
Qed.

(** X24. A generation that completes writes its item in front of the
    history of the render that started it, whatever handlers ran while
    it was waiting for the backend: a history entry deleted during the
    stream is back when the stream ends. *)
Theorem generation_overwrites_history pending others c input genTone genAudience
    chunks uuid now w :
  let res := invoke (handleGeneratePromptMeanwhile pending others (Some c)
                       input genTone genAudience (Streaming chunks None) uuid now) w in
  res.1 = Returned ()
  ∧ history (final res)
    = {| id := uuid; prompt := concatFragments chunks; timestamp := now;
         userInput := input; tone := genTone; targetAudience := genAudience |}
      :: take 49 (history w)
  ∧ isLoading (final res) = false
  ∧ ∀ x, x ∈ take 49 (history w) → x ∈ history (final res).
Proof.
  intros res. subst res.
  unfold invoke, final, handleGeneratePromptMeanwhile, resetChatStates, setHistory.
  repeat (first [rewrite bind_assoc_run | rewrite bind_step]; cbn [world published]).
  rewrite tryFinally_run, tryCatch_run, bind_run.
  match goal with
  | |- context [awaitStreamMeanwhile pending ?req (Streaming chunks None) ?R] =>
      destruct (awaitStreamMeanwhile_streaming pending req chunks None R) as (r1 & ->)
  end.
  cbn [fst snd]. rewrite bind_run.
  destruct (forAwaitMeanwhile_generateChunk others chunks None "" r1) as (r2 & ->).
  rewrite string_app_nil_l. run.
  split_and!; [done..|]. intros x Hx. by right.
Qed.

Example deleted_entry_comes_back :
  let deleting := [fun render => handleClearHistoryItem "a" render] in
  let res := invoke (handleGeneratePromptMeanwhile deleting [] (Some sampleClient)
                       "A tutor" "Formal" "Students"
                       (Streaming [ {| text := Some "You teach." |} ] None)
                       "c" 1700000000001) testingWorld in
  (id <$> history testingWorld) = ["a"; "b"]
  ∧ (λ s, id <$> history s) <$> trace res !! 10%nat = Some ["b"]
  ∧ (id <$> history (final res)) = ["c"; "a"; "b"].
Proof. split_and!; reflexivity. Qed.

(** X25. A test thread cleared while its answer is on the way leaves
    the turn with no placeholder to write to: the updater for the next
    non-empty fragment raises on the empty thread, and so does the one
    that records the error when the request is rejected. Neither is
    inside the [try] of the handler. *)
Theorem clear_during_test_answer c message t rest failure e w :
  generatedPrompt w ≠ "" →
  t ≠ "" →
  (invoke (handleSendTestMessageMeanwhile []
             [fun render => handleClearTestChat render] (Some c) message
             (Streaming ({| text := Some t |} :: rest) failure)) w).1 = RenderError
  ∧ (invoke (handleSendTestMessageMeanwhile
               [fun render => handleClearTestChat render] [] (Some c) message
               (Rejected e)) w).1 = RenderError
  ∧ setLastContent t [] = None.
Proof.
  intros Hp Ht.
  assert (truthy (Some (generatedPrompt w)) = true) as Hg
    by (by destruct (generatedPrompt w)).
  unfold invoke, handleSendTestMessageMeanwhile. rewrite Hg.
  destruct t as [|a t]; [done|].
  clear Hp Hg Ht. destruct w as [? ? ? ? ? ? ? ? ? ? ? ? ? ? ? [ch|] ?];
    split_and!; reflexivity.
Qed.

Lemma clear_during_test_answer_witness :
  (invoke (handleSendTestMessageMeanwhile []
             [fun render => handleClearTestChat render] (Some sampleClient) "hello"
             (Streaming ({| text := Some "Hi" |} :: [ {| text := Some "!" |} ]) None))
     sampleWorld).1 = RenderError
  ∧ (invoke (handleSendTestMessageMeanwhile
               [fun render => handleClearTestChat render] [] (Some sampleClient) "hello"
               (Rejected OtherValue)) sampleWorld).1 = RenderError
  ∧ setLastContent "Hi" [] = None.
Proof.
  apply (clear_during_test_answer sampleClient "hello" "Hi" [ {| text := Some "!" |} ]
           None OtherValue sampleWorld); discriminate.
Defined.

(** ** The form *)

(** X26. A generation started from the form records the three cells of
    the form in its history item, so that selecting that item right
    after a completed generation changes nothing at all. *)
Theorem form_submit_round_trip c chunks uuid now w :
  let w1 := final (invoke (handleFormSubmit (Some c) (Streaming chunks None) uuid now) w) in
  head (history w1)
  = Some {| id := uuid; prompt := concatFragments chunks; timestamp := now;
            userInput := formUserInput w; tone := formTone w;
            targetAudience := formTargetAudience w |}
  ∧ ∀ item, head (history w1) = Some item →
            final (invoke (handleSelectHistory item) w1) = w1.
Proof.
  intros w1. subst w1.
  assert (invoke (handleFormSubmit (Some c) (Streaming chunks None) uuid now) w
          = generation (Some c) (formUserInput w) (formTone w) (formTargetAudience w)
              (Streaming chunks None) uuid now w) as -> by reflexivity.
  destruct (handleGeneratePrompt_final c (formUserInput w) (formTone w)
              (formTargetAudience w) (Streaming chunks None) uuid now w) as [_ F].
  rewrite F. split; [done|].
  intros item [= <-]. by rewrite handleSelectHistory_final.
Qed.

Lemma form_submit_round_trip_witness :
  final (invoke (handleSelectHistory
                   {| id := "id-1"; prompt := concatFragments [ {| text := Some "Plan." |} ];
                      timestamp := 1700000000000;
                      userInput := formUserInput sampleWorld;
                      tone := formTone sampleWorld;
                      targetAudience := formTargetAudience sampleWorld |})
           (final (invoke (handleFormSubmit (Some sampleClient)
                             (Streaming [ {| text := Some "Plan." |} ] None)
                             "id-1" 1700000000000) sampleWorld)))
  = final (invoke (handleFormSubmit (Some sampleClient)
                     (Streaming [ {| text := Some "Plan." |} ] None)
                     "id-1" 1700000000000) sampleWorld).
Proof.
  apply (proj2 (form_submit_round_trip sampleClient [ {| text := Some "Plan." |} ]
                  "id-1" 1700000000000 sampleWorld)).
  reflexivity.
Defined.
